(** * BlueFlagBot: the decision pipeline

    A shallow embedding of the decision pipeline of BlueFlagBot
    ([src/core/scoring.py], [src/core/database.py], [src/api/youtube.py],
    [src/core/bot.py]) and the properties the specification states about it.

    Conventions of the embedding.
    - Text is 7-bit: [str.lower], [\w], [\s] and [\d] are the ASCII
      restrictions of the Python operations.
    - A point in time is an integer number of microseconds.  The program
      reads two clocks: Python's [datetime.now()] and the CURRENT_TIMESTAMP
      of SQLite; both readings are inputs ([Clock]).
    - The SQLite store is a record of tables; a UNIQUE table keyed by one
      column that is only read by key is a finite map, the others are lists
      of rows, newest first.
    - [html.unescape] is a library function taken as a parameter. *)

From Stdlib Require Import ZArith String Ascii List Bool Lia.
From stdpp Require Import base option list gmap sorting strings.

Local Open Scope Z_scope.

(** ** Python text operations *)

Module Text.

Definition code (c : ascii) : N := N_of_ascii c.

Definition between (lo hi : N) (c : ascii) : bool :=
  ((lo <=? code c) && (code c <=? hi))%N.

Definition is_upper (c : ascii) : bool := between 65 90 c.
Definition is_lower (c : ascii) : bool := between 97 122 c.
Definition is_digit (c : ascii) : bool := between 48 57 c.

(** [\w] *)
Definition is_word (c : ascii) : bool :=
  is_upper c || is_lower c || is_digit c || (code c =? 95)%N.

(** [\s] and [str.isspace]: TAB LF VT FF CR, FS GS RS US, SPACE. *)
Definition is_space (c : ascii) : bool :=
  between 9 13 c || between 28 31 c || (code c =? 32)%N.

Definition lower_char (c : ascii) : ascii :=
  if is_upper c then ascii_of_N (code c + 32) else c.

Definition upper_char (c : ascii) : ascii :=
  if is_lower c then ascii_of_N (code c - 32) else c.

(** [s.lower()] and [s.upper()] *)
Fixpoint lower (s : string) : string :=
  match s with
  | EmptyString => EmptyString
  | String c s' => String (lower_char c) (lower s')
  end.

Fixpoint upper (s : string) : string :=
  match s with
  | EmptyString => EmptyString
  | String c s' => String (upper_char c) (upper s')
  end.

(** [sub in s] *)
Fixpoint contains (sub s : string) : bool :=
  String.prefix sub s ||
  match s with
  | EmptyString => false
  | String _ s' => contains sub s'
  end.

(** [x in xs] for a list of strings *)
Definition mem (x : string) (xs : list string) : bool :=
  existsb (String.eqb x) xs.

(** [re.sub(r'[^\w\s]', '', s)] *)
Fixpoint drop_punctuation (s : string) : string :=
  match s with
  | EmptyString => EmptyString
  | String c s' =>
      if is_word c || is_space c then String c (drop_punctuation s')
      else drop_punctuation s'
  end.

(** [re.sub(r'\s+', ' ', s)]: [in_run] tells that the previous character
    was white space, whose run has already been replaced. *)
Fixpoint collapse_from (in_run : bool) (s : string) : string :=
  match s with
  | EmptyString => EmptyString
  | String c s' =>
      if is_space c
      then (if in_run then collapse_from true s'
            else String " " (collapse_from true s'))
      else String c (collapse_from false s')
  end.

Definition collapse_whitespace (s : string) : string := collapse_from false s.

Fixpoint lstrip (s : string) : string :=
  match s with
  | EmptyString => EmptyString
  | String c s' => if is_space c then lstrip s' else s
  end.

Fixpoint rstrip (s : string) : string :=
  match s with
  | EmptyString => EmptyString
  | String c s' =>
      match rstrip s' with
      | EmptyString => if is_space c then EmptyString else String c EmptyString
      | r => String c r
      end
  end.

(** [s.strip()] *)
Definition strip (s : string) : string := rstrip (lstrip s).

(** [s.split()]: the maximal runs of characters that are not white space.
    [cur] is the word being read, its characters in reverse. *)
Fixpoint split_from (cur : option string) (s : string) : list string :=
  match s with
  | EmptyString => option_list (String.rev <$> cur)
  | String c s' =>
      if is_space c
      then option_list (String.rev <$> cur) ++ split_from None s'
      else split_from (Some (String c (default EmptyString cur))) s'
  end.

Definition split (s : string) : list string := split_from None s.

(** [' '.join(xs)] *)
Definition join (xs : list string) : string := String.concat " " xs.

(** [s[:n]] *)
Definition take (n : nat) (s : string) : string := String.substring 0 n s.

(** The longest prefix of decimal digits, and what follows it. *)
Fixpoint span_digits (s : string) : string * string :=
  match s with
  | EmptyString => (EmptyString, EmptyString)
  | String c s' =>
      if is_digit c
      then (let (d, r) := span_digits s' in (String c d, r))
      else (EmptyString, s)
  end.

(** [int(digits)] *)
Fixpoint int_from (acc : Z) (s : string) : Z :=
  match s with
  | EmptyString => acc
  | String c s' => int_from (10 * acc + (Z.of_N (code c) - 48)) s'
  end.

Definition int (s : string) : Z := int_from 0 s.

(** [int(s, 16)] on a lower-case hexadecimal string. *)
Definition hex_digit (c : ascii) : Z :=
  if is_digit c then Z.of_N (code c) - 48 else Z.of_N (code c) - 87.

Fixpoint int16_from (acc : Z) (s : string) : Z :=
  match s with
  | EmptyString => acc
  | String c s' => int16_from (16 * acc + hex_digit c) s'
  end.

Definition int16 (s : string) : Z := int16_from 0 s.

End Text.

(** ** ISO 8601 durations, as both short-form checks parse them *)

Module Duration.

(** One optional group [(?:(\d+)X)?] of the pattern: when the text starts
    with one or more digits followed by [unit] the group takes them,
    otherwise it matches the empty string and its value is missing. *)
Definition group (unit : ascii) (s : string) : option string * string :=
  match Text.span_digits s with
  | (EmptyString, _) => (None, s)
  | (digits, String c rest) =>
      if Ascii.eqb c unit then (Some digits, rest) else (None, s)
  | (_, EmptyString) => (None, s)
  end.

(** [re.match(r'PT(?:(\d+)H)?(?:(\d+)M)?(?:(\d+)S)?', duration)]: the three
    groups of the match, or [None] when the text does not start with PT. *)
Definition re_match (duration : string)
  : option (option string * option string * option string) :=
  match duration with
  | String "P" (String "T" s) =>
      let (h, s1) := group "H" s in
      let (m, s2) := group "M" s1 in
      let (sec, _) := group "S" s2 in
      Some (h, m, sec)
  | _ => None
  end.

(** [int(match.group(i) or 0)] *)
Definition group_value (g : option string) : Z :=
  match g with
  | Some digits => Text.int digits
  | None => 0
  end.

Definition total_seconds
  (groups : option string * option string * option string) : Z :=
  let '(h, m, s) := groups in
  group_value h * 3600 + group_value m * 60 + group_value s.

End Duration.


(** ** hashlib.md5 *)

Module MD5.

Definition mask : Z := 4294967295.
Definition word (x : Z) : Z := Z.land x mask.
Definition rotl (x : Z) (n : Z) : Z :=
  word (Z.lor (Z.shiftl x n) (Z.shiftr x (32 - n))).
Definition not32 (x : Z) : Z := Z.lxor x mask.

(** The per-round shift amounts. *)
Definition shifts : list Z :=
  [
     7; 12; 17; 22; 7; 12; 17; 22; 7; 12; 17; 22; 7; 12; 17; 22;
     5; 9; 14; 20; 5; 9; 14; 20; 5; 9; 14; 20; 5; 9; 14; 20;
     4; 11; 16; 23; 4; 11; 16; 23; 4; 11; 16; 23; 4; 11; 16; 23;
     6; 10; 15; 21; 6; 10; 15; 21; 6; 10; 15; 21; 6; 10; 15; 21
  ].

(** [floor(abs(sin(i + 1)) * 2^32)] for [i] from 0 to 63. *)
Definition sines : list Z :=
  [
     3614090360; 3905402710; 606105819; 3250441966;
     4118548399; 1200080426; 2821735955; 4249261313;
     1770035416; 2336552879; 4294925233; 2304563134;
     1804603682; 4254626195; 2792965006; 1236535329;
     4129170786; 3225465664; 643717713; 3921069994;
     3593408605; 38016083; 3634488961; 3889429448;
     568446438; 3275163606; 4107603335; 1163531501;
     2850285829; 4243563512; 1735328473; 2368359562;
     4294588738; 2272392833; 1839030562; 4259657740;
     2763975236; 1272893353; 4139469664; 3200236656;
     681279174; 3936430074; 3572445317; 76029189;
     3654602809; 3873151461; 530742520; 3299628645;
     4096336452; 1126891415; 2878612391; 4237533241;
     1700485571; 2399980690; 4293915773; 2240044497;
     1873313359; 4264355552; 2734768916; 1309151649;
     4149444226; 3174756917; 718787259; 3951481745
  ].

Definition bytes_of (s : string) : list Z :=
  map (fun c => Z.of_N (N_of_ascii c)) (list_ascii_of_string s).

(** [n] bytes of [x], least significant first. *)
Fixpoint little_endian (n : nat) (x : Z) : list Z :=
  match n with
  | O => []
  | S n' => Z.land x 255 :: little_endian n' (Z.shiftr x 8)
  end.

(** The message, a one bit, zero bits up to 56 bytes modulo 64, and the
    length of the message in bits on 8 bytes. *)
Definition pad (message : list Z) : list Z :=
  let len := Z.of_nat (length message) in
  let zeros := Z.to_nat ((55 - len) mod 64) in
  message ++ [128] ++ repeat 0 zeros ++ little_endian 8 (8 * len).

Fixpoint word_of (bytes : list Z) : Z :=
  match bytes with
  | [] => 0
  | b :: bytes' => b + 256 * word_of bytes'
  end.

(** The 32-bit words of a byte sequence, four bytes each. *)
Fixpoint words_of (n : nat) (bytes : list Z) : list Z :=
  match n with
  | O => []
  | S n' => word_of (take 4 bytes) :: words_of n' (drop 4 bytes)
  end.

Definition nth_word (i : Z) (words : list Z) : Z :=
  nth (Z.to_nat i) words 0.

Definition step (block : list Z) (state : Z * Z * Z * Z) (i : Z) : Z * Z * Z * Z :=
  let '(a, b, c, d) := state in
  let '(f, g) :=
    if i <? 16 then (Z.lor (Z.land b c) (Z.land (not32 b) d), i)
    else if i <? 32 then (Z.lor (Z.land d b) (Z.land (not32 d) c), (5 * i + 1) mod 16)
    else if i <? 48 then (Z.lxor (Z.lxor b c) d, (3 * i + 5) mod 16)
    else (Z.lxor c (Z.lor b (not32 d)), (7 * i) mod 16) in
  let f := word (f + a + nth_word i sines + nth_word g block) in
  (d, word (b + rotl f (nth_word i shifts)), b, c).

Definition rounds : list Z := map Z.of_nat (seq 0 64).

Definition compress (state : Z * Z * Z * Z) (block : list Z) : Z * Z * Z * Z :=
  let '(a0, b0, c0, d0) := state in
  let '(a, b, c, d) := fold_left (step block) rounds state in
  (word (a0 + a), word (b0 + b), word (c0 + c), word (d0 + d)).

(** The blocks of sixteen words of a padded message of [n] blocks. *)
Fixpoint blocks_of (n : nat) (words : list Z) : list (list Z) :=
  match n with
  | O => []
  | S n' => take 16 words :: blocks_of n' (drop 16 words)
  end.

Definition initial : Z * Z * Z * Z :=
  (1732584193, 4023233417, 2562383102, 271733878).

Definition digest (message : list Z) : list Z :=
  let padded := pad message in
  let words := words_of (length padded / 4) padded in
  let '(a, b, c, d) :=
    fold_left compress (blocks_of (length words / 16) words) initial in
  little_endian 4 a ++ little_endian 4 b ++ little_endian 4 c ++ little_endian 4 d.

Definition hex_char (n : Z) : ascii :=
  ascii_of_N (Z.to_N (if n <? 10 then 48 + n else 87 + n)).

Fixpoint hex (bytes : list Z) : string :=
  match bytes with
  | [] => EmptyString
  | b :: bytes' => String (hex_char (b / 16)) (String (hex_char (b mod 16)) (hex bytes'))
  end.

(** [hashlib.md5(text.encode()).hexdigest()] *)
Definition hexdigest (text : string) : string := hex (digest (bytes_of text)).

End MD5.

(** ** Configuration and candidates *)

(** The keyword lists of [config['keywords']['en']]; a missing list is
    empty. *)
Record Keywords := {
  auto_reject : list string;
  quality_boosters : list string;
  race_content : list string;
  analysis_content : list string;
  warning_signs : list string
}.

(** [config['filtering']]: every key may be missing, and each reader
    supplies its default. *)
Record Filtering := {
  min_quality_threshold : option Z;
  livestream_quality_threshold : option Z;
  live_content_bonus : option Z;
  min_video_length_seconds : option Z;
  video_max_age_hours : option Z;
  duplicate_check_hours : option Z
}.

(** [d.get(key, fallback)] *)
Definition get {A} (entry : option A) (fallback : A) : A := default fallback entry.

(** The [video_data] dictionary.  [duration] is read with [.get] by the
    scorer; the last three keys are attached by the pipeline and are missing
    until then. *)
Record Video := {
  video_id : string;
  title : string;
  channel_name : string;
  channel_id : string;
  published_at : Z;
  url : string;
  description : string;
  view_count : Z;
  duration : option string;
  is_livestream : bool;
  is_upcoming : bool;
  scheduled_start_time : option Z;
  actual_start_time : option Z;
  quality_score : option Z;
  series_tag : option string;
  priority_score : option Z
}.

Definition set_quality_score (q : Z) (v : Video) : Video :=
  {| video_id := video_id v; title := title v; channel_name := channel_name v;
     channel_id := channel_id v; published_at := published_at v; url := url v;
     description := description v; view_count := view_count v;
     duration := duration v; is_livestream := is_livestream v;
     is_upcoming := is_upcoming v;
     scheduled_start_time := scheduled_start_time v;
     actual_start_time := actual_start_time v;
     quality_score := Some q; series_tag := series_tag v;
     priority_score := priority_score v |}.

(** Durations of time in microseconds. *)
Definition seconds (n : Z) : Z := n * 1000000.
Definition minutes (n : Z) : Z := seconds (n * 60).
Definition hours (n : Z) : Z := seconds (n * 3600).
Definition days (n : Z) : Z := hours (n * 24).

(** ** scoring.py: ContentScorer *)

Module ContentScorer.

Record t := {
  keywords : Keywords;
  filtering : Filtering
}.

(** One of the four keyword loops: for each keyword, [in_title] points when
    it occurs in the title, else [in_description] points when it occurs in
    the description. *)
Definition keyword_step (in_title in_description : Z) (title description : string)
    (score : Z) (keyword : string) : Z :=
  if Text.contains (Text.lower keyword) title then score + in_title
  else if Text.contains (Text.lower keyword) description then score + in_description
  else score.

Definition keyword_loop (in_title in_description : Z) (keywords : list string)
    (title description : string) (score : Z) : Z :=
  fold_left (keyword_step in_title in_description title description) keywords score.

(** The score after the four keyword loops, from the base score 50. *)
Definition keyword_score (self : t) (title description : string) : Z :=
  let score := 50 in
  let score := keyword_loop 10 5 (quality_boosters (keywords self)) title description score in
  let score := keyword_loop 15 8 (race_content (keywords self)) title description score in
  let score := keyword_loop 8 4 (analysis_content (keywords self)) title description score in
  let score := keyword_loop (-15) (-8) (warning_signs (keywords self)) title description score in
  score.

Definition view_bonus (view_count : Z) (score : Z) : Z :=
  if view_count >? 5000 then score + 5
  else if view_count >? 2500 then score + 3
  else if view_count >? 1000 then score + 1
  else score.

(** [age_hours > 24 and view_count < 500], the age being
    [datetime.now() - published_at]. *)
Definition age_penalty (now published_at view_count : Z) (score : Z) : Z :=
  if (now - published_at >? hours 24) && (view_count <? 500)
  then score - 10 else score.

Definition rally_stage (title : string) : bool :=
  (Text.contains "stage" (Text.lower title) &&
     (Text.contains "rally" (Text.lower title) || Text.contains "wrc" (Text.lower title)))
  || Text.contains "special stage" (Text.lower title).

Definition calculate_content_quality_score (self : t) (now : Z) (video_data : Video) : Z :=
  let title := Text.lower (title video_data) in
  let description := Text.lower (description video_data) in
  let view_count := view_count video_data in
  if existsb (fun keyword => Text.contains (Text.lower keyword) title)
       (auto_reject (keywords self))
  then 0
  else
    let score := keyword_score self title description in
    let score := view_bonus view_count score in
    let score := age_penalty now (published_at video_data) view_count score in
    let score :=
      if is_livestream video_data
      then score + get (live_content_bonus (filtering self)) 25
      else score in
    let score := if rally_stage title then score + 10 else score in
    Z.max 0 (Z.min 100 score).

Definition short_indicators : list string :=
  ["#shorts"; "#short"; "#youtubeshorts"].

Definition is_youtube_short (self : t) (video_data : Video) : bool :=
  let title := Text.lower (title video_data) in
  if existsb (fun indicator => Text.contains indicator title) short_indicators
  then true
  else
    match duration video_data with
    | Some (String _ _ as duration) =>
        match Duration.re_match duration with
        | None => true
        | Some groups =>
            Duration.total_seconds groups
              <? get (min_video_length_seconds (filtering self)) 60
        end
    | _ => false
    end.

(** Returns the verdict and the candidate with its score attached. *)
Definition is_acceptable_content (self : t) (now : Z) (video_data : Video)
  : bool * Video :=
  let quality_score := calculate_content_quality_score self now video_data in
  let video_data' := set_quality_score quality_score video_data in
  let threshold :=
    if is_livestream video_data'
    then get (livestream_quality_threshold (filtering self)) 60
    else get (min_quality_threshold (filtering self)) 65 in
  if quality_score <? threshold then (false, video_data')
  else if is_youtube_short self video_data' then (false, video_data')
  else (true, video_data').

End ContentScorer.

(** ** Exceptions, and stateful computations that may raise *)

Inductive Exn :=
| KeyError (key : string)
| ProgrammingError (message : string)
| IntegrityError (message : string)
| RequestError (message : string)
| AttributeError (message : string).

(** [str(e)] *)
Definition str (e : Exn) : string :=
  match e with
  | KeyError key => String.append "'" (String.append key "'")
  | ProgrammingError message | IntegrityError message | RequestError message
  | AttributeError message => message
  end.

Inductive outcome (A : Type) :=
| Ok (value : A)
| Raise (e : Exn).
Arguments Ok {A} value.
Arguments Raise {A} e.

(** A computation over a state [S]: it returns or raises, and in both cases
    leaves a state behind (what was committed before an exception stays
    committed). *)
Definition M (S A : Type) : Type := S -> outcome A * S.

Definition ret {S A} (a : A) : M S A := fun s => (Ok a, s).
Definition raise {S A} (e : Exn) : M S A := fun s => (Raise e, s).
Definition bind {S A B} (m : M S A) (k : A -> M S B) : M S B :=
  fun s =>
    match m s with
    | (Ok a, s') => k a s'
    | (Raise e, s') => (Raise e, s')
    end.
(** [try: m except Exception as e: handler(e)] *)
Definition try_except {S A} (m : M S A) (handler : Exn -> M S A) : M S A :=
  fun s =>
    match m s with
    | (Ok a, s') => (Ok a, s')
    | (Raise e, s') => handler e s'
    end.
Definition read {S} : M S S := fun s => (Ok s, s).
Definition write {S} (s : S) : M S unit := fun _ => (Ok tt, s).

Notation "'do' x <- m ; k" := (bind m (fun x => k))
  (at level 10, x name, m at level 100, k at level 200).
Notation "'do' ' p <- m ; k" := (bind m (fun x => match x with p => k end))
  (at level 10, p pattern, m at level 100, k at level 200).

(** The two clocks a step of the program reads. *)
Record Clock := {
  now : Z;                (* datetime.now() *)
  current_timestamp : Z   (* CURRENT_TIMESTAMP and datetime('now') of SQLite *)
}.

(** [datetime.now().date()], as a day number. *)
Definition today (clk : Clock) : Z := now clk / days 1.

(** ** SQLite: parameter binding and LIKE *)

Module Sqlite.

(** The parameter markers of a statement are its question marks outside
    string literals. *)
Fixpoint markers_from (in_literal : bool) (sql : string) : nat :=
  match sql with
  | EmptyString => 0%nat
  | String c sql' =>
      if Ascii.eqb c "'" then markers_from (negb in_literal) sql'
      else if Ascii.eqb c "?" && negb in_literal
           then S (markers_from in_literal sql')
           else markers_from in_literal sql'
  end.

Definition markers (sql : string) : nat := markers_from false sql.

(** [cursor.execute(query, params)]: the statement runs when as many
    values are supplied as it has markers, and the call raises
    otherwise.  The message of sqlite3 goes on with the two numbers; its
    first sentence is what is kept here. *)
Definition execute {S A} (query : string) (params : nat) (run : M S A) : M S A :=
  if Nat.eqb (markers query) params then run
  else raise (ProgrammingError "Incorrect number of bindings supplied.").




(** [datetime('now', modifier)] for a modifier of the form [+N days];
    any other text is not a modifier and makes the result NULL. *)
Definition datetime (now : Z) (modifier : string) : option Z :=
  match modifier with
  | String "+" amount =>
      match Text.span_digits amount with
      | (String _ _ as digits, " days") => Some (now + days (Text.int digits))
      | _ => None
      end
  | _ => None
  end.

End Sqlite.

(** ** database.py: Database *)

Module Database.

Record PostedVideo := {
  pv_video_id : string;
  pv_title : string;
  pv_channel_name : string;
  pv_channel_id : string;
  pv_series_tag : string;
  pv_youtube_url : string;
  pv_lemmy_post_id : Z;
  pv_posted_at : Z;
  pv_priority_score : Z;
  pv_quality_score : Z
}.

Record LemmyPost := {
  lp_post_id : Z;
  lp_url : string;
  lp_title : string;
  lp_created_at : Z
}.

Record DuplicateEntry := {
  dt_video_id : string;
  dt_title_hash : string;
  dt_channel_id : string;
  dt_detected_at : Z
}.

Record CacheEntry := {
  oc_video_id : string;
  oc_channel_id : string;
  oc_cached_at : Z;
  oc_expiry : Z
}.

(** A row of [bot_stats]; the table is keyed by its date. *)
Record BotStats := {
  posts_made : Z;
  youtube_quota_used : Z;
  errors_count : Z;
  videos_processed : Z
}.

Record ErrorEntry := {
  er_timestamp : Z;
  er_error_type : string;
  er_error_message : string;
  er_module : string;
  er_function : string
}.

Record t := {
  posted_videos : list PostedVideo;
  lemmy_posts : list LemmyPost;
  duplicate_tracking : list DuplicateEntry;
  old_video_cache : list CacheEntry;
  bot_stats : gmap Z BotStats;
  error_log : list ErrorEntry
}.

Definition empty : t :=
  {| posted_videos := []; lemmy_posts := []; duplicate_tracking := [];
     old_video_cache := []; bot_stats := ∅; error_log := [] |}.

Definition with_posted_videos (rows : list PostedVideo) (db : t) : t :=
  {| posted_videos := rows; lemmy_posts := lemmy_posts db;
     duplicate_tracking := duplicate_tracking db;
     old_video_cache := old_video_cache db; bot_stats := bot_stats db;
     error_log := error_log db |}.

Definition with_lemmy_posts (rows : list LemmyPost) (db : t) : t :=
  {| posted_videos := posted_videos db; lemmy_posts := rows;
     duplicate_tracking := duplicate_tracking db;
     old_video_cache := old_video_cache db; bot_stats := bot_stats db;
     error_log := error_log db |}.


Definition with_bot_stats (rows : gmap Z BotStats) (db : t) : t :=
  {| posted_videos := posted_videos db; lemmy_posts := lemmy_posts db;
     duplicate_tracking := duplicate_tracking db;
     old_video_cache := old_video_cache db; bot_stats := rows;
     error_log := error_log db |}.

Definition with_error_log (rows : list ErrorEntry) (db : t) : t :=
  {| posted_videos := posted_videos db; lemmy_posts := lemmy_posts db;
     duplicate_tracking := duplicate_tracking db;
     old_video_cache := old_video_cache db; bot_stats := bot_stats db;
     error_log := rows |}.

(** [COUNT( * )] of the rows that satisfy a WHERE clause. *)
Definition count {A} (where_ : A -> bool) (rows : list A) : Z :=
  Z.of_nat (length (filter (fun row => where_ row = true) rows)).

(** [execute] and [execute_and_commit]: every statement is committed on its
    own, so the two differ only in what [run] does to the store. *)
Definition execute {A} := @Sqlite.execute t A.
Definition execute_and_commit := @Sqlite.execute t unit.

(** A read-only statement. *)
Definition select {A} (query : string) (params : nat) (rows : t -> A) : M t A :=
  execute query params (do db <- read; ret (rows db)).

Definition record_posted_video (clk : Clock) (video_data : Video) (post_id : Z)
  : M t unit :=
  execute_and_commit
    "INSERT INTO posted_videos (video_id, title, channel_name, channel_id, series_tag, youtube_url, lemmy_post_id, priority_score, quality_score) VALUES (?, ?, ?, ?, ?, ?, ?, ?, ?)"
    9
    (do db <- read;
     if existsb (fun row => String.eqb (pv_video_id row) (video_id video_data))
          (posted_videos db)
     then raise (IntegrityError "UNIQUE constraint failed: posted_videos.video_id")
     else
       write (with_posted_videos
         ({| pv_video_id := video_id video_data;
             pv_title := title video_data;
             pv_channel_name := channel_name video_data;
             pv_channel_id := channel_id video_data;
             pv_series_tag := get (series_tag video_data) "OTHER";
             pv_youtube_url := url video_data;
             pv_lemmy_post_id := post_id;
             pv_posted_at := current_timestamp clk;
             pv_priority_score := get (priority_score video_data) 0;
             pv_quality_score := get (quality_score video_data) 0 |}
          :: posted_videos db) db)).

Definition record_lemmy_post (clk : Clock) (post_id : Z) (url title : string)
  : M t unit :=
  execute_and_commit
    "INSERT OR IGNORE INTO lemmy_posts (post_id, url, title) VALUES (?, ?, ?)"
    3
    (do db <- read;
     if existsb (fun row => lp_post_id row =? post_id) (lemmy_posts db)
     then ret tt
     else
       write (with_lemmy_posts
         ({| lp_post_id := post_id; lp_url := url; lp_title := title;
             lp_created_at := current_timestamp clk |}
          :: lemmy_posts db) db)).

Definition common_words : list string :=
  ["highlights"; "race"; "qualifying"; "practice"; "session"; "live"; "full";
   "rally"; "stage"; "wrc"; "special"].

(** The words of the normalised title that are not common words. *)
Definition title_words (title : string) : list string :=
  let normalized := Text.drop_punctuation (Text.lower title) in
  let normalized := Text.strip (Text.collapse_whitespace normalized) in
  filter (fun w => Text.mem w common_words = false) (Text.split normalized).

(** [sorted(words)]: strings are ordered by their characters' codes. *)
Definition sorted (words : list string) : list string :=
  merge_sort String.le words.

Definition generate_title_hash (title : string) : string :=
  let content := Text.join (sorted (title_words title)) in
  Text.take 16 (MD5.hexdigest content).


Definition is_video_in_old_cache (clk : Clock) (video_id : string) : M t bool :=
  select "SELECT 1 FROM old_video_cache WHERE video_id = ? AND expiry > datetime('now')" 1
    (fun db => existsb (fun row => String.eqb (oc_video_id row) video_id
                                   && (oc_expiry row >? current_timestamp clk))
                 (old_video_cache db)).

Definition with_old_video_cache (rows : list CacheEntry) (db : t) : t :=
  {| posted_videos := posted_videos db; lemmy_posts := lemmy_posts db;
     duplicate_tracking := duplicate_tracking db;
     old_video_cache := rows; bot_stats := bot_stats db;
     error_log := error_log db |}.

(** The statement is executed with three values.  Its third question mark
    is inside the literal ['+? days'], which is the modifier that SQLite is
    given as it stands; [expiry] is NOT NULL. *)
Definition add_video_to_old_cache (clk : Clock) (video_id channel_id : string)
    (is_livestream : bool) (days_ : Z) : M t unit :=
  if is_livestream then ret tt
  else
    execute_and_commit
      "INSERT OR REPLACE INTO old_video_cache (video_id, channel_id, cached_at, expiry) VALUES (?, ?, datetime('now'), datetime('now', '+? days'))"
      3
      (do db <- read;
       match Sqlite.datetime (current_timestamp clk) "+? days" with
       | Some expiry =>
           write (with_old_video_cache
             ({| oc_video_id := video_id; oc_channel_id := channel_id;
                 oc_cached_at := current_timestamp clk; oc_expiry := expiry |}
              :: filter (fun row => String.eqb (oc_video_id row) video_id = false)
                   (old_video_cache db)) db)
       | None =>
           raise (IntegrityError "NOT NULL constraint failed: old_video_cache.expiry")
       end).

Definition add_stats (d : BotStats) (row : BotStats) : BotStats :=
  {| posts_made := posts_made row + posts_made d;
     youtube_quota_used := youtube_quota_used row + youtube_quota_used d;
     errors_count := errors_count row + errors_count d;
     videos_processed := videos_processed row + videos_processed d |}.

Definition update_bot_stats (clk : Clock)
    (posts_made_ quota_used errors videos_processed_ : Z) : M t unit :=
  let today := today clk in
  let delta := {| posts_made := posts_made_; youtube_quota_used := quota_used;
                  errors_count := errors; videos_processed := videos_processed_ |} in
  do result <- select "SELECT * FROM bot_stats WHERE date = ?" 1
                 (fun db => bot_stats db !! today);
  match result with
  | Some row =>
      execute_and_commit
        "UPDATE bot_stats SET posts_made = posts_made + ?, youtube_quota_used = youtube_quota_used + ?, errors_count = errors_count + ?, videos_processed = videos_processed + ? WHERE date = ?"
        5
        (do db <- read;
         write (with_bot_stats (alter (add_stats delta) today (bot_stats db)) db))
  | None =>
      execute_and_commit
        "INSERT INTO bot_stats (date, posts_made, youtube_quota_used, errors_count, videos_processed) VALUES (?, ?, ?, ?, ?)"
        5
        (do db <- read;
         match bot_stats db !! today with
         | Some _ => raise (IntegrityError "UNIQUE constraint failed: bot_stats.date")
         | None => write (with_bot_stats (<[today := delta]> (bot_stats db)) db)
         end)
  end.

Definition get_recent_posts_count (clk : Clock) (hours_ : Z) : M t Z :=
  let cutoff_time := now clk - hours hours_ in
  select "SELECT COUNT( * ) as count FROM posted_videos WHERE posted_at > ?" 1
    (fun db => count (fun row => pv_posted_at row >? cutoff_time) (posted_videos db)).

Definition get_youtube_quota_usage (clk : Clock) : M t Z :=
  let today := today clk in
  do result <- select "SELECT youtube_quota_used FROM bot_stats WHERE date = ?" 1
                 (fun db => bot_stats db !! today);
  ret match result with
      | Some row => youtube_quota_used row
      | None => 0
      end.

Definition log_error (clk : Clock) (error_type error_message module function : string)
  : M t unit :=
  execute_and_commit
    "INSERT INTO error_log (error_type, error_message, module, function) VALUES (?, ?, ?, ?)"
    4
    (do db <- read;
     write (with_error_log
       ({| er_timestamp := current_timestamp clk; er_error_type := error_type;
           er_error_message := error_message; er_module := module;
           er_function := function |}
        :: error_log db) db)).

End Database.

(** ** The state of a bot process *)

(** The store is one object, shared by the bot and its API clients:
    [self.db] is [None] or the one [Database].  [quota_used_this_run] is the
    counter the YouTube client keeps in memory. *)
Record State := {
  db : option Database.t;
  quota_used_this_run : Z
}.

(** [if self.db:] *)
Definition has_db : M State bool := fun w => (Ok (bool_decide (is_Some (db w))), w).

(** [self.db.method(..)] *)
Definition on_db {A} (method : M Database.t A) : M State A :=
  fun w =>
    match db w with
    | Some store =>
        let (result, store') := method store in
        (result, {| db := Some store'; quota_used_this_run := quota_used_this_run w |})
    | None => (Raise (AttributeError "'NoneType' object has no attribute"), w)
    end.

(** [if self.db: self.db.method(..)] *)
Definition if_db (method : M Database.t unit) : M State unit :=
  do present <- has_db;
  if present then on_db method else ret tt.

(** [d[key]] *)
Definition item {S A} (entry : option A) (key : string) : M S A :=
  match entry with
  | Some value => ret value
  | None => raise (KeyError key)
  end.

(** The configuration dictionary, as far as the pipeline reads it. *)
Record Config := {
  keywords : Keywords;
  filtering : Filtering;
  daily_quota : option Z;
  quota_per_run : option Z;
  interval_minutes : option Z;
  max_posts_per_run : option Z;
  max_posts_per_day : option Z;
  max_posts_per_hour : option Z;
  time_between_posts_seconds : option Z;
  test_mode : option bool
}.

(** ** youtube.py: YouTubeAPI *)

Module YouTubeAPI.

Definition daily_quota_limit (config : Config) : Z := get (daily_quota config) 10000.
Definition run_quota_limit (config : Config) : Z := get (quota_per_run config) 300.

Definition add_quota (cost : Z) (row : Database.BotStats) : Database.BotStats :=
  {| Database.posts_made := Database.posts_made row;
     Database.youtube_quota_used := Database.youtube_quota_used row + cost;
     Database.errors_count := Database.errors_count row;
     Database.videos_processed := Database.videos_processed row |}.

Definition track_quota_usage (clk : Clock) (cost : Z) : M State unit :=
  do w <- read;
  do _ <- write {| db := db w; quota_used_this_run := quota_used_this_run w + cost |};
  do present <- has_db;
  if present then
    let today := today clk in
    do result <- on_db (Database.select "SELECT * FROM bot_stats WHERE date = ?" 1
                          (fun store => Database.bot_stats store !! today));
    match result with
    | Some _ =>
        on_db (Database.execute_and_commit
          "UPDATE bot_stats SET youtube_quota_used = youtube_quota_used + ? WHERE date = ?"
          2
          (do store <- read;
           write (Database.with_bot_stats
                    (alter (add_quota cost) today (Database.bot_stats store)) store)))
    | None =>
        on_db (Database.execute_and_commit
          "INSERT INTO bot_stats (date, posts_made, youtube_quota_used, errors_count, videos_processed) VALUES (?, 0, ?, 0, 0)"
          2
          (do store <- read;
           match Database.bot_stats store !! today with
           | Some _ => raise (IntegrityError "UNIQUE constraint failed: bot_stats.date")
           | None =>
               write (Database.with_bot_stats
                        (<[today := {| Database.posts_made := 0;
                                       Database.youtube_quota_used := cost;
                                       Database.errors_count := 0;
                                       Database.videos_processed := 0 |}]>
                           (Database.bot_stats store)) store)
           end))
    end
  else ret tt.

Definition check_quota_limit (config : Config) (clk : Clock) (estimated_cost : Z)
  : M State bool :=
  do w <- read;
  if quota_used_this_run w + estimated_cost >? run_quota_limit config then ret false
  else
    do present <- has_db;
    if present then
      do daily_usage <- on_db (Database.get_youtube_quota_usage clk);
      if daily_usage + estimated_cost >? daily_quota_limit config then ret false
      else ret true
    else ret true.

Definition reset_quota_usage : M State unit :=
  do w <- read;
  write {| db := db w; quota_used_this_run := 0 |}.

(** The body of the [try] of the source.  Its handler returns [True] for a
    body that raises, which takes a duration that is no text, a minimum
    length that is no number, or a run of digits that [int] refuses for its
    length; the types of the embedding leave these out. *)
Definition is_youtube_short (config : Config) (duration : string) : bool :=
  if String.eqb duration "P0D" then false
  else
    match Duration.re_match duration with
    | None => true
    | Some groups =>
        Duration.total_seconds groups
          <? get (min_video_length_seconds (filtering config)) 60
    end.

(** An item of the [playlistItems] response. *)
Record PlaylistItem := {
  pi_video_id : string;
  pi_title : string;
  pi_channel_id : string;
  pi_published_at : Z
}.

Record LiveStreamingDetails := {
  scheduledStartTime : option Z;
  actualStartTime : option Z;
  actualEndTime : option Z
}.

(** An item of the [videos] response. *)
Record VideoInfo := {
  vi_id : string;
  vi_title : string;
  vi_channel_title : string;
  vi_channel_id : string;
  vi_published_at : Z;
  vi_description : string;
  vi_view_count : option Z;
  vi_duration : string;
  liveStreamingDetails : option LiveStreamingDetails
}.

Definition cutoff_date (config : Config) (clk : Clock) : Z :=
  now clk - hours (get (video_max_age_hours (filtering config)) 24).

(** The body of the first loop of [get_channel_recent_videos]: the id of an
    item that is kept for the details request. *)
Definition get_channel_recent_videos_prefilter (config : Config) (clk : Clock) (item_ : PlaylistItem)
  : M State (option string) :=
  let video_id := pi_video_id item_ in
  do present <- has_db;
  do cached <- (if present then on_db (Database.is_video_in_old_cache clk video_id)
                else ret false);
  if cached then ret None
  else
    let title := Text.upper (pi_title item_) in
    let might_be_livestream := Text.contains "LIVE" title in
    if (pi_published_at item_ <? cutoff_date config clk - hours 168)
       && negb might_be_livestream
    then
      do _ <- if_db (Database.add_video_to_old_cache clk video_id
                       (pi_channel_id item_) false 30);
      ret None
    else ret (Some video_id).

(** [is_upcoming], [scheduled_start_time], [is_livestream] and
    [actual_start_time] of an item. *)
Definition live_state (video_info : VideoInfo)
  : bool * option Z * bool * option Z :=
  match liveStreamingDetails video_info with
  | Some live_details =>
      let '(is_upcoming, scheduled_start_time) :=
        match scheduledStartTime live_details with
        | Some start => (true, Some start)
        | None => (false, None)
        end in
      let '(is_livestream, actual_start_time) :=
        match actualStartTime live_details with
        | Some start => (bool_decide (actualEndTime live_details = None), Some start)
        | None => (false, None)
        end in
      (is_upcoming, scheduled_start_time, is_livestream, actual_start_time)
  | None => (false, None, false, None)
  end.

Definition before (time : option Z) (limit : Z) : bool :=
  match time with
  | Some t => t <? limit
  | None => false
  end.

(** The body of the second loop of [get_channel_recent_videos]: the
    candidate made of an item, or [None] for an item that is skipped. *)
Definition get_channel_recent_videos_item (config : Config) (clk : Clock) (video_info : VideoInfo)
  : M State (option Video) :=
  let video_id := vi_id video_info in
  let channel_id := vi_channel_id video_info in
  let published_date := vi_published_at video_info in
  let '(is_upcoming, scheduled_start_time, is_livestream, actual_start_time) :=
    live_state video_info in
  if negb is_livestream && negb is_upcoming
     && (published_date <? cutoff_date config clk)
  then
    do _ <- if_db (Database.add_video_to_old_cache clk video_id channel_id false 30);
    ret None
  else if is_upcoming && before scheduled_start_time (now clk)
  then
    do _ <- if_db (Database.add_video_to_old_cache clk video_id channel_id false 30);
    ret None
  else
    let duration := vi_duration video_info in
    if is_youtube_short config duration
    then
      do _ <- if_db (Database.add_video_to_old_cache clk video_id channel_id false 30);
      ret None
    else
      ret (Some
        {| video_id := vi_id video_info;
           title := vi_title video_info;
           channel_name := vi_channel_title video_info;
           channel_id := vi_channel_id video_info;
           published_at := published_date;
           url := String.append "https://www.youtube.com/watch?v=" (vi_id video_info);
           description := vi_description video_info;
           view_count := get (vi_view_count video_info) 0;
           duration := Some duration;
           is_livestream := is_livestream;
           is_upcoming := is_upcoming;
           scheduled_start_time := scheduled_start_time;
           actual_start_time := actual_start_time;
           quality_score := None;
           series_tag := None;
           priority_score := None |}).

(** The second loop: the candidates of a [videos] response, in order. *)
Fixpoint get_channel_recent_videos_loop (config : Config) (clk : Clock) (items : list VideoInfo)
  : M State (list Video) :=
  match items with
  | [] => ret []
  | video_info :: items' =>
      do video <- get_channel_recent_videos_item config clk video_info;
      do videos <- get_channel_recent_videos_loop config clk items';
      ret (option_list video ++ videos)
  end.

End YouTubeAPI.

(** ** lemmy.py: LemmyAPI, at its boundary *)

Module LemmyAPI.

(** What the forum answers to the POST of [create_post]: a response with a
    [post_view], whose post has an id; no usable response (the request
    failed after its retries, or the response has no [post_view]); or an
    exception that [_make_request] does not handle. *)
Inductive Response :=
| PostView (post_id : Z)
| NoPostView
| Failure (e : Exn).

(** [create_post]: the id of the post created, [None] otherwise. *)
Definition create_post (clk : Clock) (response : Response) (name url : string)
  : M State (option Z) :=
  match response with
  | PostView post_id =>
      do _ <- if_db (Database.record_lemmy_post clk post_id url name);
      ret (Some post_id)
  | NoPostView => ret None
  | Failure e => raise e
  end.

End LemmyAPI.

(** ** bot.py: BlueFlagBot *)

Module BlueFlagBot.

(** What the outside world answers while one candidate is handled: the
    readings of the clocks, the community id [get_community_id] returns and
    the forum's response to the post. *)
Record Environment := {
  clock : Clock;
  community_id : option Z;
  response : LemmyAPI.Response
}.

Definition should_post_video (config : Config) (clk : Clock) (video_data : Video)
  : M State bool :=
  do present <- has_db;
  if negb present then ret true
  else
    do daily_posts <- on_db (Database.get_recent_posts_count clk 24);
    if daily_posts >=? get (max_posts_per_day config) 100 then ret false
    else
      do hourly_posts <- on_db (Database.get_recent_posts_count clk 1);
      if hourly_posts >=? get (max_posts_per_hour config) 20 then ret false
      else if is_livestream video_data then
        let threshold := get (livestream_quality_threshold (filtering config)) 60 in
        do quality_score <- item (quality_score video_data) "quality_score";
        if quality_score <? threshold then ret false else ret true
      else
        let threshold := get (min_quality_threshold (filtering config)) 65 in
        do quality_score <- item (quality_score video_data) "quality_score";
        if quality_score <? threshold then ret false else ret true.

(** A post id as [if post_id:] and [if not community_id:] read it. *)
Definition truthy (id : option Z) : bool :=
  match id with
  | Some n => negb (n =? 0)
  | None => false
  end.

Section Libraries.

(** [html.unescape] *)
Variable html_unescape : string -> string.

Definition create_lemmy_post (config : Config) (env : Environment)
    (video_data : Video) : M State (option Z) :=
  let clk := clock env in
  try_except
    (if negb (truthy (community_id env)) then ret None
     else
       do tag <- item (series_tag video_data) "series_tag";
       let post_title :=
         String.append "["
           (String.append tag
              (String.append "] " (html_unescape (title video_data)))) in
       do _ <- item (quality_score video_data) "quality_score";
       if get (test_mode config) false then
         let fake_post_id :=
           Text.int16 (MD5.hexdigest (video_id video_data)) mod 10000000 in
         do _ <- if_db (Database.record_posted_video clk video_data fake_post_id);
         ret (Some fake_post_id)
       else
         do post <- LemmyAPI.create_post clk (response env) post_title
                      (url video_data);
         match post with
         | Some post_id =>
             do _ <- if_db (Database.record_posted_video clk video_data post_id);
             ret (Some post_id)
         | None => ret None
         end)
    (fun e =>
       do _ <- if_db (Database.log_error clk "post_creation" (str e) "bot.py"
                        "create_lemmy_post");
       ret None).

(** The publishing loop of [run_once], from its [k]-th iteration on:
    [posts_made] and [errors] when it ends. *)
Fixpoint run_once_loop (config : Config) (env : nat -> Environment) (k : nat)
    (candidate_videos : list Video) (posts_made errors : Z) : M State (Z * Z) :=
  match candidate_videos with
  | [] => ret (posts_made, errors)
  | video :: rest =>
      if posts_made >=? get (max_posts_per_run config) 5
      then ret (posts_made, errors)
      else
        do wanted <- should_post_video config (clock (env k)) video;
        if negb wanted then run_once_loop config env (S k) rest posts_made errors
        else
          do '(posts_made', errors') <-
            try_except
              (do post_id <- create_lemmy_post config (env k) video;
               if truthy post_id then ret (posts_made + 1, errors)
               else ret (posts_made, errors + 1))
              (fun e =>
                 do _ <- if_db (Database.log_error (clock (env k)) "post_creation"
                                  (str e) "bot.py" "run_once");
                 ret (posts_made, errors + 1));
          run_once_loop config env (S k) rest posts_made' errors'
  end.

End Libraries.

End BlueFlagBot.

(** ** What the properties speak about *)

(** The number of keywords of a list that occur in a title, and of those
    that occur in the description without occurring in the title. *)
Definition title_hits (keywords : list string) (title : string) : Z :=
  Database.count (fun keyword => Text.contains (Text.lower keyword) title) keywords.

Definition description_only_hits (keywords : list string)
    (title description : string) : Z :=
  Database.count
    (fun keyword => negb (Text.contains (Text.lower keyword) title)
                    && Text.contains (Text.lower keyword) description)
    keywords.





(** The count that [get_recent_posts_count] takes: the published records
    whose stamp, which the store sets from CURRENT_TIMESTAMP, is later than
    [datetime.now()] less the hours. *)
Definition recent_posts (store : Database.t) (clk : Clock) (hours_ : Z) : Z :=
  Database.count (fun row => Database.pv_posted_at row >? now clk - hours hours_)
    (Database.posted_videos store).

(** The published records of the rolling window of [hours_] hours, in the
    words of the specification: the records published less than that many
    hours ago.  The age of a record is read on the clock that stamped it. *)
Definition published_in_window (store : Database.t) (clk : Clock) (hours_ : Z) : Z :=
  Database.count
    (fun row => Database.pv_posted_at row >? current_timestamp clk - hours hours_)
    (Database.posted_videos store).

(** The durable daily quota counter. *)
Definition daily_quota_used (store : Database.t) (clk : Clock) : Z :=
  match Database.bot_stats store !! today clk with
  | Some row => Database.youtube_quota_used row
  | None => 0
  end.

(** The published records a process sees. *)
Definition published_records (w : State) : list Database.PostedVideo :=
  match db w with
  | Some store => Database.posted_videos store
  | None => []
  end.

(** The threshold that applies to a candidate. *)
Definition applicable_threshold (config : Config) (video_data : Video) : Z :=
  if is_livestream video_data
  then get (livestream_quality_threshold (filtering config)) 60
  else get (min_quality_threshold (filtering config)) 65.

(** Two states of a process with the same published records. *)
Definition same_records (w w' : State) : Prop :=
  match db w, db w' with
  | Some store, Some store' =>
      Database.posted_videos store' = Database.posted_videos store
  | None, None => True
  | _, _ => False
  end.

(** ** Inputs on which the properties are tried *)

Definition sample_keywords : Keywords :=
  {| auto_reject := ["shorts"; "podcast"];
     quality_boosters := ["official"; "hd"];
     race_content := ["race"; "qualifying"];
     analysis_content := ["analysis"; "review"];
     warning_signs := ["reaction"; "rumor"] |}.

Definition sample_filtering : Filtering :=
  {| min_quality_threshold := Some 65;
     livestream_quality_threshold := Some 60;
     live_content_bonus := None;
     min_video_length_seconds := None;
     video_max_age_hours := None;
     duplicate_check_hours := None |}.

Definition sample_scorer : ContentScorer.t :=
  {| ContentScorer.keywords := sample_keywords;
     ContentScorer.filtering := sample_filtering |}.

Definition sample_config : Config :=
  {| keywords := sample_keywords;
     filtering := sample_filtering;
     daily_quota := None;
     quota_per_run := None;
     interval_minutes := None;
     max_posts_per_run := None;
     max_posts_per_day := Some 2;
     max_posts_per_hour := None;
     time_between_posts_seconds := None;
     test_mode := None |}.

Definition sample_video (title_ description_ : string) : Video :=
  {| video_id := "dQw4w9WgXcQ";
     title := title_;
     channel_name := "Rally TV";
     channel_id := "UC5G6kTnHXDz0WIBC2VGBOqg";
     published_at := 0;
     url := "https://www.youtube.com/watch?v=dQw4w9WgXcQ";
     description := description_;
     view_count := 1200;
     duration := Some "PT12M30S";
     is_livestream := false;
     is_upcoming := false;
     scheduled_start_time := None;
     actual_start_time := None;
     quality_score := None;
     series_tag := None;
     priority_score := None |}.

Definition with_description : Video := sample_video "Official onboard lap" "Now in HD".
Definition without_description : Video := sample_video "Official onboard lap" "".

Definition live_broadcast : Video :=
  {| video_id := "dQw4w9WgXcQ";
     title := "Rally Finland LIVE: Official Power Stage Race";
     channel_name := "Rally TV";
     channel_id := "UC5G6kTnHXDz0WIBC2VGBOqg";
     published_at := 0;
     url := "https://www.youtube.com/watch?v=dQw4w9WgXcQ";
     description := "";
     view_count := 9000;
     duration := Some "P0D";
     is_livestream := true;
     is_upcoming := true;
     scheduled_start_time := Some 0;
     actual_start_time := Some (minutes 1);
     quality_score := None;
     series_tag := None;
     priority_score := None |}.


Definition at_hour (h : Z) : Clock := {| now := hours h; current_timestamp := hours h |}.

Definition posted (id : string) (at_ : Z) : Database.PostedVideo :=
  {| Database.pv_video_id := id;
     Database.pv_title := "Stage 4 Highlights";
     Database.pv_channel_name := "Rally TV";
     Database.pv_channel_id := "UC5G6kTnHXDz0WIBC2VGBOqg";
     Database.pv_series_tag := "WRC";
     Database.pv_youtube_url := String.append "https://www.youtube.com/watch?v=" id;
     Database.pv_lemmy_post_id := 7;
     Database.pv_posted_at := at_;
     Database.pv_priority_score := 5;
     Database.pv_quality_score := 80 |}.

(** Two published records in the last day, one of them in the last hour. *)
Definition busy_store : Database.t :=
  Database.with_posted_videos
    [posted "kJQP7kiw5Fk" (hours 99 + minutes 30); posted "9bZkp7q19f0" (hours 90)]
    Database.empty.

Definition with_store (store : Database.t) : State :=
  {| db := Some store; quota_used_this_run := 0 |}.

Definition scored (score : Z) (video_data : Video) : Video :=
  set_quality_score score video_data.

Definition without_store : State := {| db := None; quota_used_this_run := 0 |}.

(** A store whose counter of the day stands at 9990 units. *)
Definition spent_store : Database.t :=
  Database.with_bot_stats
    {[ today (at_hour 100) := {| Database.posts_made := 3;
                                 Database.youtube_quota_used := 9990;
                                 Database.errors_count := 0;
                                 Database.videos_processed := 40 |} ]}
    Database.empty.

(** A broadcast scheduled for the hour 99 that went live a minute later and
    is running at the hour 100. *)
Definition live_item : YouTubeAPI.VideoInfo :=
  {| YouTubeAPI.vi_id := "dQw4w9WgXcQ";
     YouTubeAPI.vi_title := "Rally Finland LIVE: Power Stage";
     YouTubeAPI.vi_channel_title := "Rally TV";
     YouTubeAPI.vi_channel_id := "UC5G6kTnHXDz0WIBC2VGBOqg";
     YouTubeAPI.vi_published_at := hours 90;
     YouTubeAPI.vi_description := "";
     YouTubeAPI.vi_view_count := Some 9000;
     YouTubeAPI.vi_duration := "P0D";
     YouTubeAPI.liveStreamingDetails :=
       Some {| YouTubeAPI.scheduledStartTime := Some (hours 99);
               YouTubeAPI.actualStartTime := Some (hours 99 + minutes 1);
               YouTubeAPI.actualEndTime := None |} |}.

(** The forum gives no usable response to the post of a candidate that
    [should_post_video] admits. *)
Definition refusing (k : nat) : BlueFlagBot.Environment :=
  {| BlueFlagBot.clock := at_hour 100;
     BlueFlagBot.community_id := Some 12;
     BlueFlagBot.response := LemmyAPI.NoPostView |}.

Definition tagged (tag : string) (video_data : Video) : Video :=
  {| video_id := video_id video_data; title := title video_data;
     channel_name := channel_name video_data; channel_id := channel_id video_data;
     published_at := published_at video_data; url := url video_data;
     description := description video_data; view_count := view_count video_data;
     duration := duration video_data; is_livestream := is_livestream video_data;
     is_upcoming := is_upcoming video_data;
     scheduled_start_time := scheduled_start_time video_data;
     actual_start_time := actual_start_time video_data;
     quality_score := quality_score video_data; series_tag := Some tag;
     priority_score := Some 5 |}.

Definition accepted_candidate : Video :=
  tagged "WRC" (scored 80 (sample_video "Official Race" "")).

Definition quiet_state : State :=
  with_store (Database.with_posted_videos [posted "9bZkp7q19f0" (hours 90)]
                Database.empty).

(** The clocks of a process whose local time is [offset] hours ahead of
    UTC, at the UTC time [utc]. *)
Definition zone_clock (utc offset : Z) : Clock :=
  {| now := utc + hours offset; current_timestamp := utc |}.

(** At most one post an hour, and the default cap of a day. *)
Definition hourly_config : Config :=
  {| keywords := sample_keywords;
     filtering := sample_filtering;
     daily_quota := None;
     quota_per_run := None;
     interval_minutes := None;
     max_posts_per_run := None;
     max_posts_per_day := None;
     max_posts_per_hour := Some 1;
     time_between_posts_seconds := None;
     test_mode := None |}.

(** The store after [record_posted_video] has recorded a first post at the
    hour 100 of UTC, two hours ahead of which the process lives. *)
Definition fresh_store : Database.t :=
  snd (Database.record_posted_video (zone_clock (hours 100) 2) accepted_candidate 7
         Database.empty).

(** The candidate that comes a minute later. *)
Definition next_candidate : Video :=
  {| video_id := "kJQP7kiw5Fk";
     title := "Official Race";
     channel_name := "Rally TV";
     channel_id := "UC5G6kTnHXDz0WIBC2VGBOqg";
     published_at := hours 99;
     url := "https://www.youtube.com/watch?v=kJQP7kiw5Fk";
     description := "";
     view_count := 1200;
     duration := Some "PT12M30S";
     is_livestream := false;
     is_upcoming := false;
     scheduled_start_time := None;
     actual_start_time := None;
     quality_score := Some 100;
     series_tag := Some "WRC";
     priority_score := Some 5 |}.

(** A broadcast announced for the hour 99 that has not started at the
    hour 100. *)
Definition overdue_item : YouTubeAPI.VideoInfo :=
  {| YouTubeAPI.vi_id := "9bZkp7q19f0";
     YouTubeAPI.vi_title := "Rally Finland: Shakedown";
     YouTubeAPI.vi_channel_title := "Rally TV";
     YouTubeAPI.vi_channel_id := "UC5G6kTnHXDz0WIBC2VGBOqg";
     YouTubeAPI.vi_published_at := hours 90;
     YouTubeAPI.vi_description := "";
     YouTubeAPI.vi_view_count := None;
     YouTubeAPI.vi_duration := "P0D";
     YouTubeAPI.liveStreamingDetails :=
       Some {| YouTubeAPI.scheduledStartTime := Some (hours 99);
               YouTubeAPI.actualStartTime := None;
               YouTubeAPI.actualEndTime := None |} |}.

(** A store whose negative cache holds one entry. *)
Definition cached_store : Database.t :=
  Database.with_old_video_cache
    [ {| Database.oc_video_id := "kJQP7kiw5Fk";
         Database.oc_channel_id := "UC5G6kTnHXDz0WIBC2VGBOqg";
         Database.oc_cached_at := hours 80;
         Database.oc_expiry := hours 80 + days 30 |} ]
    Database.empty.

(** * Properties *)

(** ** The content quality score *)

Lemma count_cons {A} (where_ : A -> bool) (row : A) (rows : list A) :
  Database.count where_ (row :: rows)
  = (if where_ row then 1 else 0) + Database.count where_ rows.
Proof.
  unfold Database.count. rewrite filter_cons.
  destruct (where_ row) eqn:E.
  - rewrite decide_True by done. simpl length. lia.
  - rewrite decide_False by (intros H; discriminate H). lia.
Qed.

Lemma count_nil {A} (where_ : A -> bool) : Database.count where_ [] = 0.
Proof. reflexivity. Qed.

Lemma count_positive {A} (where_ : A -> bool) (rows : list A) :
  (Database.count where_ rows >? 0) = existsb where_ rows.
Proof.
  induction rows as [|row rows IH].
  - reflexivity.
  - rewrite count_cons. cbn [existsb]. rewrite <- IH.
    assert (0 <= Database.count where_ rows) by (unfold Database.count; lia).
    destruct (where_ row); cbn [orb]; [|reflexivity].
    destruct (Z.gtb_spec (1 + Database.count where_ rows) 0); [reflexivity|lia].
Qed.

Section Scoring.

Variable self : ContentScorer.t.

Lemma keyword_loop_closed (in_title in_description : Z) (keywords : list string)
    (title description : string) (score : Z) :
  ContentScorer.keyword_loop in_title in_description keywords title description score
  = score + in_title * title_hits keywords title
    + in_description * description_only_hits keywords title description.
Proof.
  unfold ContentScorer.keyword_loop, title_hits, description_only_hits.
  revert score. induction keywords as [|keyword keywords IH]; intros score.
  - cbn [fold_left]. rewrite !count_nil. lia.
  - cbn [fold_left]. rewrite IH, !count_cons.
    unfold ContentScorer.keyword_step.
    destruct (Text.contains (Text.lower keyword) title);
      destruct (Text.contains (Text.lower keyword) description); cbn [negb andb]; lia.
Qed.

(** C1.  The score lies between 0 and 100, and it is 0 as soon as one
    auto-reject keyword occurs in the title, letter case apart, whatever
    the other fields of the candidate are. *)
Theorem score_bounded_and_auto_reject (clock_now : Z) (video_data : Video) :
  0 <= ContentScorer.calculate_content_quality_score self clock_now video_data <= 100
  /\ (forall keyword,
        In keyword (auto_reject (ContentScorer.keywords self)) ->
        Text.contains (Text.lower keyword) (Text.lower (title video_data)) = true ->
        ContentScorer.calculate_content_quality_score self clock_now video_data = 0).
Proof.
  unfold ContentScorer.calculate_content_quality_score. split.
  - destruct (existsb _ _); lia.
  - intros keyword Hin Hhit.
    destruct (existsb _ _) eqn:E; [reflexivity|].
    apply not_true_iff_false in E. exfalso. apply E.
    apply existsb_exists. exists keyword. auto.
Qed.

(** C8, as the code has it.  Each keyword is judged on its own: within a
    category a keyword adds the title weight when it occurs in the title,
    and the lower description weight when it occurs in the description but
    not in the title; whether another keyword of the category occurs in
    the title plays no part. *)
Theorem keyword_points_per_keyword (title description : string) :
  let k := ContentScorer.keywords self in
  ContentScorer.keyword_score self title description
  = 50
    + 10 * title_hits (quality_boosters k) title
    + 5 * description_only_hits (quality_boosters k) title description
    + 15 * title_hits (race_content k) title
    + 8 * description_only_hits (race_content k) title description
    + 8 * title_hits (analysis_content k) title
    + 4 * description_only_hits (analysis_content k) title description
    - 15 * title_hits (warning_signs k) title
    - 8 * description_only_hits (warning_signs k) title description.
Proof.
  unfold ContentScorer.keyword_score. cbv zeta.
  rewrite !keyword_loop_closed. lia.
Qed.

End Scoring.

(** A title with an auto-reject keyword in capitals, and every other signal
    in favour of the candidate. *)
Lemma score_auto_reject_witness :
  ContentScorer.calculate_content_quality_score sample_scorer 0
    (sample_video "Official Race Highlights (PODCAST edition)" "official hd race") = 0.
Proof.
  apply (proj2 (score_bounded_and_auto_reject sample_scorer 0
                  (sample_video "Official Race Highlights (PODCAST edition)"
                     "official hd race")) "podcast").
  - vm_compute. right. left. reflexivity.
  - vm_compute. reflexivity.
Defined.

(** C8, as the specification states it, fails: "official" occurs in the
    title, so the quality boosters have matched the title, and the booster
    "hd" of the description still adds its 5 points. *)
Lemma description_points_despite_title_match :
  existsb (fun keyword => Text.contains (Text.lower keyword)
                            (Text.lower (title with_description)))
    (quality_boosters sample_keywords) = true
  /\ ContentScorer.calculate_content_quality_score sample_scorer 0 with_description = 66
  /\ ContentScorer.calculate_content_quality_score sample_scorer 0 without_description = 61
  /\ ContentScorer.calculate_content_quality_score sample_scorer 0 with_description
     <> ContentScorer.calculate_content_quality_score sample_scorer 0 without_description.
Proof. vm_compute. repeat split; try reflexivity. discriminate. Qed.

(** ** Short-form checks and the duration of a live broadcast *)

(** C7.  The scorer's short-form check has no exception for the duration
    P0D of a live broadcast, unlike the check of the YouTube client: it
    takes every candidate with that duration for a short-form clip, and
    [is_acceptable_content] rejects it whatever its score is. *)
Theorem live_sentinel_short_for_scorer (self : ContentScorer.t) (config : Config)
    (video_data : Video) :
  duration video_data = Some "P0D" ->
  YouTubeAPI.is_youtube_short config "P0D" = false
  /\ ContentScorer.is_youtube_short self video_data = true
  /\ forall clock_now,
       fst (ContentScorer.is_acceptable_content self clock_now video_data) = false.
Proof.
  intros Hduration.
  assert (Hshort : forall q, ContentScorer.is_youtube_short self
                               (set_quality_score q video_data) = true).
  { intros q. unfold ContentScorer.is_youtube_short. cbn [set_quality_score title duration].
    rewrite Hduration. destruct (existsb _ _); reflexivity. }
  split; [reflexivity|]. split.
  - unfold ContentScorer.is_youtube_short. rewrite Hduration.
    destruct (existsb _ _); reflexivity.
  - intros clock_now. unfold ContentScorer.is_acceptable_content. cbv zeta.
    rewrite Hshort. destruct (_ <? _); reflexivity.
Qed.

Lemma live_sentinel_short_for_scorer_witness :
  ContentScorer.calculate_content_quality_score sample_scorer (hours 1) live_broadcast = 100
  /\ YouTubeAPI.is_youtube_short sample_config "P0D" = false
  /\ ContentScorer.is_youtube_short sample_scorer live_broadcast = true
  /\ fst (ContentScorer.is_acceptable_content sample_scorer (hours 1) live_broadcast) = false.
Proof.
  destruct (live_sentinel_short_for_scorer sample_scorer sample_config live_broadcast
              eq_refl) as (Hclient & Hscorer & Hverdict).
  split; [vm_compute; reflexivity|]. split; [exact Hclient|].
  split; [exact Hscorer|]. apply Hverdict.
Defined.

(** ** The title hash *)

Lemma sorted_permutation (words1 words2 : list string) :
  words1 ≡ₚ words2 -> Database.sorted words1 = Database.sorted words2.
Proof.
  intros Hperm. unfold Database.sorted.
  apply (Sorted_unique String.le).
  - apply Sorted_merge_sort; apply _.
  - apply Sorted_merge_sort; apply _.
  - rewrite !merge_sort_Permutation. exact Hperm.
Qed.

(** C6.  Two titles whose normalised words, the common words left out, are
    the same up to their order have the same hash; so have the two titles of
    the specification. *)
Theorem title_hash_order_invariant :
  (forall title1 title2 : string,
      Database.title_words title1 ≡ₚ Database.title_words title2 ->
      Database.generate_title_hash title1 = Database.generate_title_hash title2)
  /\ Database.generate_title_hash "WRC Rally Finland Highlights"
     = Database.generate_title_hash "Highlights: Rally Finland WRC".
Proof.
  assert (H : forall title1 title2 : string,
      Database.title_words title1 ≡ₚ Database.title_words title2 ->
      Database.generate_title_hash title1 = Database.generate_title_hash title2).
  { intros title1 title2 Hperm. unfold Database.generate_title_hash. cbv zeta.
    rewrite (sorted_permutation _ _ Hperm). reflexivity. }
  split; [exact H|]. apply H. vm_compute. reflexivity.
Qed.

Lemma title_hash_order_invariant_witness :
  Database.title_words "Monaco Grand Prix - Race Highlights"
  = ["monaco"; "grand"; "prix"]
  /\ Database.title_words "FULL RACE: Prix, Grand... Monaco!"
     = ["prix"; "grand"; "monaco"]
  /\ Database.generate_title_hash "Monaco Grand Prix - Race Highlights"
     = Database.generate_title_hash "FULL RACE: Prix, Grand... Monaco!".
Proof.
  split; [vm_compute; reflexivity|]. split; [vm_compute; reflexivity|].
  apply (proj1 title_hash_order_invariant).
  vm_compute.
  apply (perm_trans (l' := ["grand"; "monaco"; "prix"])).
  - apply perm_swap.
  - apply (perm_trans (l' := ["grand"; "prix"; "monaco"])).
    + apply perm_skip. apply perm_swap.
    + apply perm_swap.
Defined.

(** ** Statements and their parameters *)

Lemma execute_runs {S A} (query : string) (params : nat) (run : M S A) :
  Sqlite.markers query = params -> Sqlite.execute query params run = run.
Proof.
  intros <-. unfold Sqlite.execute. rewrite Nat.eqb_refl. reflexivity.
Qed.

Lemma execute_raises {S A} (query : string) (params : nat) (run : M S A) :
  Sqlite.markers query <> params ->
  Sqlite.execute query params run
  = raise (ProgrammingError "Incorrect number of bindings supplied.").
Proof.
  intros Hne. unfold Sqlite.execute.
  destruct (Nat.eqb_spec (Sqlite.markers query) params); [contradiction|reflexivity].
Qed.

Lemma select_returns {A} (query : string) (params : nat) (rows : Database.t -> A)
    (store : Database.t) :
  Sqlite.markers query = params ->
  Database.select query params rows store = (Ok (rows store), store).
Proof.
  intros H. unfold Database.select, Database.execute.
  rewrite execute_runs by exact H. reflexivity.
Qed.

(** ** Deduplication *)





(** ** Calls on the store of a process *)

Lemma has_db_present (w : State) (store : Database.t) :
  db w = Some store -> has_db w = (Ok true, w).
Proof. intros H. unfold has_db. rewrite H. reflexivity. Qed.

Lemma has_db_absent (w : State) : db w = None -> has_db w = (Ok false, w).
Proof. intros H. unfold has_db. rewrite H. reflexivity. Qed.

Lemma on_db_present {A} (method : M Database.t A) (w : State) (store : Database.t) :
  db w = Some store ->
  on_db method w
  = (fst (method store),
     {| db := Some (snd (method store)); quota_used_this_run := quota_used_this_run w |}).
Proof.
  intros H. unfold on_db. rewrite H. destruct (method store); reflexivity.
Qed.

(** A method that reads the store leaves the process as it is. *)
Lemma on_db_read {A} (method : M Database.t A) (w : State) (store : Database.t)
    (result : A) :
  db w = Some store -> method store = (Ok result, store) ->
  on_db method w = (Ok result, w).
Proof.
  intros H Hm. rewrite (on_db_present _ _ _ H), Hm. destruct w; cbn in *.
  rewrite H. reflexivity.
Qed.

Lemma get_recent_posts_count_returns (clk : Clock) (hours_ : Z) (store : Database.t) :
  Database.get_recent_posts_count clk hours_ store
  = (Ok (recent_posts store clk hours_), store).
Proof.
  unfold Database.get_recent_posts_count. cbv zeta.
  rewrite select_returns by reflexivity. reflexivity.
Qed.

Lemma get_youtube_quota_usage_returns (clk : Clock) (store : Database.t) :
  Database.get_youtube_quota_usage clk store = (Ok (daily_quota_used store clk), store).
Proof.
  unfold Database.get_youtube_quota_usage. cbv zeta.
  unfold bind. rewrite select_returns by reflexivity. reflexivity.
Qed.

(** ** Admission of a candidate *)

Lemma should_post_video_cases (config : Config) (clk : Clock) (video_data : Video)
    (w : State) (store : Database.t) :
  db w = Some store ->
  BlueFlagBot.should_post_video config clk video_data w
  = if recent_posts store clk 24 >=? get (max_posts_per_day config) 100
    then (Ok false, w)
    else if recent_posts store clk 1 >=? get (max_posts_per_hour config) 20
    then (Ok false, w)
    else match quality_score video_data with
         | Some score => (Ok (negb (score <? applicable_threshold config video_data)), w)
         | None => (Raise (KeyError "quality_score"), w)
         end.
Proof.
  intros Hdb.
  assert (Hcount : forall hours_,
             on_db (Database.get_recent_posts_count clk hours_) w
             = (Ok (recent_posts store clk hours_), w)).
  { intros hours_.
    apply (on_db_read _ _ store); [exact Hdb|apply get_recent_posts_count_returns]. }
  unfold BlueFlagBot.should_post_video.
  unfold bind at 1. rewrite (has_db_present _ _ Hdb). cbn [negb].
  unfold bind at 1. rewrite Hcount.
  destruct (_ >=? _); [reflexivity|].
  unfold bind at 1. rewrite Hcount.
  destruct (_ >=? _); [reflexivity|].
  unfold applicable_threshold.
  destruct (is_livestream video_data), (quality_score video_data) as [score|];
    unfold bind, item, ret, raise; try reflexivity;
    destruct (score <? _); reflexivity.
Qed.

(** The decision of [should_post_video] over the two counts that
    [get_recent_posts_count] returns: false when the count for 24 hours has
    reached the daily cap, whatever the candidate is, and also when the
    count for one hour has reached the hourly cap; below both caps, false
    exactly when the score of the candidate is below the threshold that
    applies to it, the livestream threshold for a live candidate and the
    normal one otherwise.  The call changes nothing. *)
Lemma should_post_video_decides (config : Config) (clk : Clock) (video_data : Video)
    (w : State) (store : Database.t) :
  db w = Some store ->
  let daily_posts := recent_posts store clk 24 in
  let hourly_posts := recent_posts store clk 1 in
  (daily_posts >= get (max_posts_per_day config) 100 ->
   BlueFlagBot.should_post_video config clk video_data w = (Ok false, w))
  /\ (hourly_posts >= get (max_posts_per_hour config) 20 ->
      BlueFlagBot.should_post_video config clk video_data w = (Ok false, w))
  /\ (forall score,
        daily_posts < get (max_posts_per_day config) 100 ->
        hourly_posts < get (max_posts_per_hour config) 20 ->
        quality_score video_data = Some score ->
        BlueFlagBot.should_post_video config clk video_data w
        = (Ok (negb (score <? applicable_threshold config video_data)), w)).
Proof.
  intros Hdb daily_posts hourly_posts.
  rewrite (should_post_video_cases _ _ _ _ _ Hdb).
  fold daily_posts hourly_posts.
  destruct (Z.geb_spec daily_posts (get (max_posts_per_day config) 100)) as [Hd|Hd];
    destruct (Z.geb_spec hourly_posts (get (max_posts_per_hour config) 20)) as [Hh|Hh];
    repeat split; try reflexivity; try (intros; lia).
  intros score _ _ Hscore. rewrite Hscore. reflexivity.
Qed.

(** The daily cap of 2 is reached, and a candidate with the best score is
    turned down; with no published record, the same candidate is admitted and
    one with 64 points is not. *)
Lemma should_post_video_decides_witness :
  BlueFlagBot.should_post_video sample_config (at_hour 100)
    (scored 100 (sample_video "Official Race" "")) (with_store busy_store)
  = (Ok false, with_store busy_store)
  /\ BlueFlagBot.should_post_video sample_config (at_hour 100)
       (scored 100 (sample_video "Official Race" "")) (with_store Database.empty)
     = (Ok true, with_store Database.empty)
  /\ BlueFlagBot.should_post_video sample_config (at_hour 100)
       (scored 64 (sample_video "Official Race" "")) (with_store Database.empty)
     = (Ok false, with_store Database.empty).
Proof.
  split; [|split].
  - apply (proj1 (should_post_video_decides sample_config (at_hour 100)
                    (scored 100 (sample_video "Official Race" ""))
                    (with_store busy_store) busy_store eq_refl)).
    vm_compute. discriminate.
  - apply (proj2 (proj2 (should_post_video_decides sample_config (at_hour 100)
                    (scored 100 (sample_video "Official Race" ""))
                    (with_store Database.empty) Database.empty eq_refl)) 100).
    + vm_compute. reflexivity.
    + vm_compute. reflexivity.
    + reflexivity.
  - apply (proj2 (proj2 (should_post_video_decides sample_config (at_hour 100)
                    (scored 64 (sample_video "Official Race" ""))
                    (with_store Database.empty) Database.empty eq_refl)) 64).
    + vm_compute. reflexivity.
    + vm_compute. reflexivity.
    + reflexivity.
Defined.

(** *** The window of the counts *)

Lemma count_none {A} (where_ : A -> bool) (rows : list A) :
  (forall row, In row rows -> where_ row = false) -> Database.count where_ rows = 0.
Proof.
  induction rows as [|row rows IH]; intros Hnone; [apply count_nil|].
  rewrite count_cons, (Hnone row) by (left; reflexivity).
  rewrite IH; [reflexivity|]. intros row' Hin. apply Hnone. right. exact Hin.
Qed.

Lemma count_le {A} (where_ where' : A -> bool) (rows : list A) :
  (forall row, In row rows -> where_ row = true -> where' row = true) ->
  Database.count where_ rows <= Database.count where' rows.
Proof.
  induction rows as [|row rows IH]; intros Hle; [rewrite !count_nil; lia|].
  rewrite !count_cons.
  assert (Hrows : Database.count where_ rows <= Database.count where' rows).
  { apply IH. intros row' Hin. apply Hle. right. exact Hin. }
  pose proof (Hle row (or_introl eq_refl)) as Hrow.
  pose proof (count_positive where' rows) as Hpos.
  destruct (where_ row), (where' row); try lia; discriminate (Hrow eq_refl).
Qed.

(** Where the local time of the process is UTC, the count of
    [get_recent_posts_count] is that of the rolling window. *)
Lemma recent_posts_clocks_agree (store : Database.t) (clk : Clock) (hours_ : Z) :
  now clk = current_timestamp clk ->
  recent_posts store clk hours_ = published_in_window store clk hours_.
Proof. intros Hclk. unfold recent_posts, published_in_window. rewrite Hclk. reflexivity. Qed.

(** The window the code counts over is the rolling window made shorter by
    what the local time is ahead of UTC, or longer by what it is behind. *)
Lemma recent_posts_shifted (store : Database.t) (clk : Clock) (hours_ : Z) :
  recent_posts store clk hours_
  = Database.count
      (fun row => Database.pv_posted_at row
                  >? current_timestamp clk
                     - (hours hours_ - (now clk - current_timestamp clk)))
      (Database.posted_videos store).
Proof.
  unfold recent_posts. f_equal.
  replace (current_timestamp clk - (hours hours_ - (now clk - current_timestamp clk)))
    with (now clk - hours hours_) by lia.
  reflexivity.
Qed.

(** Where the two clocks agree, [should_post_video] enforces the two caps
    on the rolling windows of 24 hours and of one hour. *)
Lemma should_post_video_clocks_agree (config : Config) (clk : Clock)
    (video_data : Video) (w : State) (store : Database.t) :
  now clk = current_timestamp clk ->
  db w = Some store ->
  let daily_posts := published_in_window store clk 24 in
  let hourly_posts := published_in_window store clk 1 in
  (daily_posts >= get (max_posts_per_day config) 100 ->
   BlueFlagBot.should_post_video config clk video_data w = (Ok false, w))
  /\ (hourly_posts >= get (max_posts_per_hour config) 20 ->
      BlueFlagBot.should_post_video config clk video_data w = (Ok false, w))
  /\ (forall score,
        daily_posts < get (max_posts_per_day config) 100 ->
        hourly_posts < get (max_posts_per_hour config) 20 ->
        quality_score video_data = Some score ->
        BlueFlagBot.should_post_video config clk video_data w
        = (Ok (negb (score <? applicable_threshold config video_data)), w)).
Proof.
  intros Hclk Hdb. cbv zeta.
  rewrite <- !(recent_posts_clocks_agree store clk) by exact Hclk.
  exact (should_post_video_decides config clk video_data w store Hdb).
Qed.

(** C4.  [get_recent_posts_count] compares the stamp of a record, which the
    store sets in UTC, with the local time of the process less the hours.
    Where the local time is an hour or more ahead of UTC and no record is
    stamped in the future, it counts no record for the last hour, so that
    [should_post_video] does not apply the hourly cap: while the daily cap
    is not reached on the rolling window of 24 hours, a candidate is
    admitted or turned down by its score alone, however many records were
    published within the last hour. *)
Theorem hourly_cap_lost_ahead_of_utc (config : Config) (clk : Clock)
    (video_data : Video) (w : State) (store : Database.t) (score : Z) :
  db w = Some store ->
  hours 1 <= now clk - current_timestamp clk ->
  (forall row, In row (Database.posted_videos store) ->
               Database.pv_posted_at row <= current_timestamp clk) ->
  published_in_window store clk 24 < get (max_posts_per_day config) 100 ->
  0 < get (max_posts_per_hour config) 20 ->
  quality_score video_data = Some score ->
  on_db (Database.get_recent_posts_count clk 1) w = (Ok 0, w)
  /\ BlueFlagBot.should_post_video config clk video_data w
     = (Ok (negb (score <? applicable_threshold config video_data)), w).
Proof.
  intros Hdb Hzone Hpast Hdaily Hcap Hscore.
  assert (Hhour : recent_posts store clk 1 = 0).
  { apply count_none. intros row Hin. specialize (Hpast row Hin).
    rewrite Z.gtb_ltb. apply Z.ltb_ge. lia. }
  assert (Hday : recent_posts store clk 24 <= published_in_window store clk 24).
  { apply count_le. intros row _ Hrow.
    rewrite Z.gtb_ltb in Hrow. apply Z.ltb_lt in Hrow.
    rewrite Z.gtb_ltb. apply Z.ltb_lt.
    unfold hours, seconds in *. lia. }
  split.
  - rewrite (on_db_read _ _ store (recent_posts store clk 1) Hdb)
      by apply get_recent_posts_count_returns.
    rewrite Hhour. reflexivity.
  - rewrite (should_post_video_cases _ _ _ _ _ Hdb), Hhour, Hscore.
    destruct (Z.geb_spec (recent_posts store clk 24) (get (max_posts_per_day config) 100));
      [lia|].
    destruct (Z.geb_spec 0 (get (max_posts_per_hour config) 20)); [lia|].
    reflexivity.
Qed.

(** A process two hours ahead of UTC with a cap of one post an hour: a
    minute after [record_posted_video] has recorded a post, that record is
    within the last hour, and the next candidate is admitted. *)
Lemma hourly_cap_lost_ahead_of_utc_witness :
  published_in_window fresh_store (zone_clock (hours 100 + minutes 1) 2) 1 = 1
  /\ get (max_posts_per_hour hourly_config) 20 = 1
  /\ BlueFlagBot.should_post_video hourly_config (zone_clock (hours 100 + minutes 1) 2)
       next_candidate (with_store fresh_store)
     = (Ok true, with_store fresh_store).
Proof.
  split; [reflexivity|]. split; [reflexivity|].
  refine (proj2 (hourly_cap_lost_ahead_of_utc hourly_config
                   (zone_clock (hours 100 + minutes 1) 2) next_candidate
                   (with_store fresh_store) fresh_store 100 eq_refl _ _ _ _ eq_refl)).
  - vm_compute. discriminate.
  - intros row [<-|[]]. vm_compute. discriminate.
  - vm_compute. reflexivity.
  - vm_compute. reflexivity.
Defined.

(** C10.  Without a store, [should_post_video] returns true for every
    candidate: neither cap and neither threshold is looked at. *)
Theorem should_post_video_without_store (config : Config) (clk : Clock)
    (video_data : Video) (w : State) :
  db w = None ->
  BlueFlagBot.should_post_video config clk video_data w = (Ok true, w).
Proof.
  intros Hdb. unfold BlueFlagBot.should_post_video.
  unfold bind. rewrite (has_db_absent _ Hdb). reflexivity.
Qed.

(** A candidate with no score at all, and one with the score 0. *)
Lemma should_post_video_without_store_witness :
  BlueFlagBot.should_post_video sample_config (at_hour 100)
    (sample_video "My reaction" "") without_store = (Ok true, without_store)
  /\ BlueFlagBot.should_post_video sample_config (at_hour 100)
       (scored 0 (sample_video "My reaction" "")) without_store
     = (Ok true, without_store).
Proof.
  split.
  - apply (should_post_video_without_store sample_config (at_hour 100)
             (sample_video "My reaction" "") without_store). reflexivity.
  - apply (should_post_video_without_store sample_config (at_hour 100)
             (scored 0 (sample_video "My reaction" "")) without_store). reflexivity.
Defined.

(** ** The quota gate *)

Lemma check_quota_limit_cases (config : Config) (clk : Clock) (estimated_cost : Z)
    (w : State) (store : Database.t) :
  db w = Some store ->
  YouTubeAPI.check_quota_limit config clk estimated_cost w
  = (Ok (negb ((quota_used_this_run w + estimated_cost
                  >? YouTubeAPI.run_quota_limit config)
               || (daily_quota_used store clk + estimated_cost
                     >? YouTubeAPI.daily_quota_limit config))), w).
Proof.
  intros Hdb. unfold YouTubeAPI.check_quota_limit.
  unfold bind at 1. unfold read at 1.
  destruct (_ >? YouTubeAPI.run_quota_limit config); [reflexivity|].
  unfold bind at 1. rewrite (has_db_present _ _ Hdb).
  unfold bind at 1.
  rewrite (on_db_read _ _ store (daily_quota_used store clk) Hdb)
    by apply get_youtube_quota_usage_returns.
  destruct (_ >? YouTubeAPI.daily_quota_limit config); reflexivity.
Qed.

Lemma track_quota_usage_cases (clk : Clock) (cost : Z) (w : State) (store : Database.t) :
  db w = Some store ->
  YouTubeAPI.track_quota_usage clk cost w
  = (Ok tt,
     {| db := Some (Database.with_bot_stats
                      (match Database.bot_stats store !! today clk with
                       | Some _ =>
                           alter (YouTubeAPI.add_quota cost) (today clk)
                             (Database.bot_stats store)
                       | None =>
                           <[today clk := {| Database.posts_made := 0;
                                             Database.youtube_quota_used := cost;
                                             Database.errors_count := 0;
                                             Database.videos_processed := 0 |}]>
                             (Database.bot_stats store)
                       end) store);
        quota_used_this_run := quota_used_this_run w + cost |}).
Proof.
  intros Hdb. destruct w as [d used]. cbn in Hdb. subst d.
  unfold YouTubeAPI.track_quota_usage.
  unfold bind at 1. unfold read at 1.
  unfold bind at 1. unfold write at 1.
  unfold bind at 1. unfold has_db at 1. cbn [db quota_used_this_run bool_decide].
  rewrite bool_decide_true by (eexists; reflexivity). cbv zeta.
  unfold bind at 1. unfold on_db at 1. cbn [db quota_used_this_run].
  rewrite select_returns by reflexivity.
  destruct (Database.bot_stats store !! today clk) as [row|] eqn:Hrow.
  - unfold on_db. cbn [db quota_used_this_run].
    unfold Database.execute_and_commit. rewrite execute_runs by reflexivity.
    reflexivity.
  - unfold on_db. cbn [db quota_used_this_run].
    unfold Database.execute_and_commit. rewrite execute_runs by reflexivity.
    unfold bind, read. rewrite Hrow. reflexivity.
Qed.

(** C5.  With a store, [check_quota_limit] returns false exactly when the
    quota used in this run plus the estimated cost exceeds the limit of a
    run, or the quota used today plus the estimated cost exceeds the daily
    limit; whatever it returns, the counter of the run and the store are as
    before.  [track_quota_usage] is what adds a cost, to the counter of the
    run and to the counter of the day. *)
Theorem quota_checked_then_tracked (config : Config) (clk : Clock)
    (estimated_cost : Z) (w : State) (store : Database.t) :
  db w = Some store ->
  YouTubeAPI.check_quota_limit config clk estimated_cost w
  = (Ok (negb ((quota_used_this_run w + estimated_cost
                  >? YouTubeAPI.run_quota_limit config)
               || (daily_quota_used store clk + estimated_cost
                     >? YouTubeAPI.daily_quota_limit config))), w)
  /\ forall actual_cost, exists store',
       YouTubeAPI.track_quota_usage clk actual_cost w
       = (Ok tt, {| db := Some store';
                    quota_used_this_run := quota_used_this_run w + actual_cost |})
       /\ daily_quota_used store' clk = daily_quota_used store clk + actual_cost
       /\ Database.posted_videos store' = Database.posted_videos store.
Proof.
  intros Hdb. split; [apply check_quota_limit_cases; exact Hdb|].
  intros actual_cost. eexists. split; [apply track_quota_usage_cases; exact Hdb|].
  split; [|reflexivity].
  unfold daily_quota_used. cbn [Database.bot_stats Database.with_bot_stats].
  destruct (Database.bot_stats store !! today clk) as [row|] eqn:Hrow.
  - rewrite lookup_alter_eq, Hrow. reflexivity.
  - rewrite lookup_insert_eq. cbn. lia.
Qed.

(** 9990 units used of the 10000 of a day: an estimate of 20 is refused, one
    of 10 is granted, and both calls leave the counters as they are. *)
Lemma quota_checked_then_tracked_witness :
  YouTubeAPI.check_quota_limit sample_config (at_hour 100) 20 (with_store spent_store)
  = (Ok false, with_store spent_store)
  /\ YouTubeAPI.check_quota_limit sample_config (at_hour 100) 10 (with_store spent_store)
     = (Ok true, with_store spent_store).
Proof.
  split.
  - apply (proj1 (quota_checked_then_tracked sample_config (at_hour 100) 20
                    (with_store spent_store) spent_store eq_refl)).
  - apply (proj1 (quota_checked_then_tracked sample_config (at_hour 100) 10
                    (with_store spent_store) spent_store eq_refl)).
Defined.

(** ** The negative cache *)

Lemma add_video_to_old_cache_livestream (clk : Clock) (video_id channel_id : string)
    (days_ : Z) (store : Database.t) :
  Database.add_video_to_old_cache clk video_id channel_id true days_ store
  = (Ok tt, store).
Proof. reflexivity. Qed.

Lemma add_video_to_old_cache_raises (clk : Clock) (video_id channel_id : string)
    (days_ : Z) (store : Database.t) :
  Database.add_video_to_old_cache clk video_id channel_id false days_ store
  = (Raise (ProgrammingError "Incorrect number of bindings supplied."), store).
Proof. reflexivity. Qed.

(** No call of [add_video_to_old_cache] changes the store. *)
Lemma add_video_to_old_cache_writes_nothing (clk : Clock) (video_id channel_id : string)
    (is_livestream : bool) (days_ : Z) (store : Database.t) :
  snd (Database.add_video_to_old_cache clk video_id channel_id is_livestream days_ store)
  = store.
Proof. destruct is_livestream; reflexivity. Qed.

(** The statement of [add_video_to_old_cache] has two parameter markers. *)
Lemma old_cache_statement_markers :
  Sqlite.markers
    "INSERT OR REPLACE INTO old_video_cache (video_id, channel_id, cached_at, expiry) VALUES (?, ?, datetime('now'), datetime('now', '+? days'))"
  = 2%nat.
Proof. reflexivity. Qed.

(** The modifier of that statement is not one SQLite knows, so that the
    expiry would be NULL; with a number in its place it is that many days
    ahead. *)
Lemma old_cache_expiry_is_null (clock_now : Z) :
  Sqlite.datetime clock_now "+? days" = None
  /\ Sqlite.datetime clock_now "+30 days" = Some (clock_now + days 30).
Proof. split; reflexivity. Qed.

(** An item whose scheduled start is in the past counts as upcoming, also
    when the broadcast has started and has not ended, that is when it is
    live.  With a store, the second loop of [get_channel_recent_videos]
    hands such an item to [add_video_to_old_cache] with the livestream flag
    off, so that the guard of that method does not apply, and the statement
    is executed: the call raises, as it does for every other item that is
    sent to the cache, and nothing is written. *)
Lemma live_item_sent_to_old_cache (config : Config) (clk : Clock)
    (video_info : YouTubeAPI.VideoInfo) (live_details : YouTubeAPI.LiveStreamingDetails)
    (scheduled : Z) (w : State) (store : Database.t) :
  YouTubeAPI.liveStreamingDetails video_info = Some live_details ->
  YouTubeAPI.scheduledStartTime live_details = Some scheduled ->
  scheduled < now clk ->
  db w = Some store ->
  (forall started,
      YouTubeAPI.actualStartTime live_details = Some started ->
      YouTubeAPI.actualEndTime live_details = None ->
      YouTubeAPI.live_state video_info = (true, Some scheduled, true, Some started))
  /\ YouTubeAPI.get_channel_recent_videos_item config clk video_info w
     = (do _ <- on_db (Database.add_video_to_old_cache clk
                         (YouTubeAPI.vi_id video_info)
                         (YouTubeAPI.vi_channel_id video_info) false 30);
        ret None) w
  /\ YouTubeAPI.get_channel_recent_videos_item config clk video_info w
     = (Raise (ProgrammingError "Incorrect number of bindings supplied."), w).
Proof.
  intros Hlive Hscheduled Hpast Hdb.
  assert (Hstate : exists is_livestream actual_start_time,
             YouTubeAPI.live_state video_info
             = (true, Some scheduled, is_livestream, actual_start_time)).
  { unfold YouTubeAPI.live_state. rewrite Hlive, Hscheduled.
    destruct (YouTubeAPI.actualStartTime live_details); eauto. }
  destruct Hstate as (is_livestream & actual_start_time & Hstate).
  assert (Hbefore : YouTubeAPI.before (Some scheduled) (now clk) = true).
  { unfold YouTubeAPI.before. destruct (Z.ltb_spec scheduled (now clk)); [reflexivity|lia]. }
  assert (Hcall : on_db (Database.add_video_to_old_cache clk
                           (YouTubeAPI.vi_id video_info)
                           (YouTubeAPI.vi_channel_id video_info) false 30) w
                  = (Raise (ProgrammingError "Incorrect number of bindings supplied."), w)).
  { rewrite (on_db_present _ _ _ Hdb), add_video_to_old_cache_raises.
    destruct w; cbn in *. rewrite Hdb. reflexivity. }
  assert (Hitem : YouTubeAPI.get_channel_recent_videos_item config clk video_info w
     = (do _ <- on_db (Database.add_video_to_old_cache clk
                         (YouTubeAPI.vi_id video_info)
                         (YouTubeAPI.vi_channel_id video_info) false 30);
        ret None) w).
  { unfold YouTubeAPI.get_channel_recent_videos_item. rewrite Hstate, Hbefore.
    rewrite andb_false_r. cbn [andb].
    unfold if_db. unfold bind. rewrite (has_db_present _ _ Hdb). reflexivity. }
  split; [|split; [exact Hitem|]].
  - intros started Hstarted Hended. unfold YouTubeAPI.live_state.
    rewrite Hlive, Hscheduled, Hstarted, Hended. reflexivity.
  - rewrite Hitem. unfold bind. rewrite Hcall. reflexivity.
Qed.

Lemma live_item_sent_to_old_cache_witness :
  YouTubeAPI.live_state live_item
  = (true, Some (hours 99), true, Some (hours 99 + minutes 1))
  /\ YouTubeAPI.get_channel_recent_videos_item sample_config (at_hour 100) live_item
       (with_store Database.empty)
     = (Raise (ProgrammingError "Incorrect number of bindings supplied."),
        with_store Database.empty).
Proof.
  destruct (live_item_sent_to_old_cache sample_config (at_hour 100) live_item
              {| YouTubeAPI.scheduledStartTime := Some (hours 99);
                 YouTubeAPI.actualStartTime := Some (hours 99 + minutes 1);
                 YouTubeAPI.actualEndTime := None |}
              (hours 99) (with_store Database.empty) Database.empty
              eq_refl eq_refl eq_refl eq_refl) as (Hstate & _ & Hraises).
  split; [apply (Hstate (hours 99 + minutes 1)); reflexivity|exact Hraises].
Defined.

(** A call on the store that leaves it as it is, made when there is a
    store, leaves the process as it is, whether it returns or raises. *)
Lemma on_db_keeps {A} (method : M Database.t A) (w : State) :
  (forall store, snd (method store) = store) -> snd (on_db method w) = w.
Proof.
  intros Hkeeps. unfold on_db. destruct w as [[store|] used]; cbn [db]; [|reflexivity].
  specialize (Hkeeps store). destruct (method store) as [result store'].
  cbn in *. subst store'. reflexivity.
Qed.

Lemma if_db_keeps (method : M Database.t unit) (w : State) :
  (forall store, snd (method store) = store) -> snd (if_db method w) = w.
Proof.
  intros Hkeeps. unfold if_db, bind, has_db.
  destruct (bool_decide (is_Some (db w))); [|reflexivity].
  apply on_db_keeps. exact Hkeeps.
Qed.

(** What an item that is sent to the cache and skipped leaves behind, and
    what comes of it. *)
Lemma skipped_item_keeps {A} (clk : Clock) (video_id channel_id : string)
    (w : State) :
  snd ((do _ <- if_db (Database.add_video_to_old_cache clk video_id channel_id false 30);
        ret (@None A)) w) = w
  /\ forall kept : A,
       fst ((do _ <- if_db (Database.add_video_to_old_cache clk video_id channel_id
                              false 30);
             ret (@None A)) w) <> Ok (Some kept).
Proof.
  pose proof (if_db_keeps
                (Database.add_video_to_old_cache clk video_id channel_id false 30) w
                (add_video_to_old_cache_writes_nothing clk video_id channel_id false 30))
    as Hkeeps.
  unfold bind.
  destruct (if_db _ w) as [[[]|e] w']; cbn in *; subst w';
    (split; [reflexivity|intros kept; discriminate]).
Qed.

Lemma get_channel_recent_videos_item_keeps (config : Config) (clk : Clock)
    (video_info : YouTubeAPI.VideoInfo) (w : State) :
  snd (YouTubeAPI.get_channel_recent_videos_item config clk video_info w) = w.
Proof.
  unfold YouTubeAPI.get_channel_recent_videos_item.
  destruct (YouTubeAPI.live_state video_info)
    as [[[is_upcoming scheduled_start_time] is_livestream] actual_start_time].
  destruct (_ && _ && _); [apply skipped_item_keeps|].
  destruct (_ && _); [apply skipped_item_keeps|].
  destruct (YouTubeAPI.is_youtube_short _ _); [apply skipped_item_keeps|reflexivity].
Qed.

Lemma get_channel_recent_videos_loop_keeps (config : Config) (clk : Clock)
    (items : list YouTubeAPI.VideoInfo) (w : State) :
  snd (YouTubeAPI.get_channel_recent_videos_loop config clk items w) = w.
Proof.
  induction items as [|video_info items IH]; [reflexivity|].
  cbn [YouTubeAPI.get_channel_recent_videos_loop]. unfold bind at 1.
  pose proof (get_channel_recent_videos_item_keeps config clk video_info w) as Hitem.
  destruct (YouTubeAPI.get_channel_recent_videos_item config clk video_info w)
    as [[video|e] w']; cbn in Hitem; subst w'; [|reflexivity].
  unfold bind.
  destruct (YouTubeAPI.get_channel_recent_videos_loop config clk items w)
    as [[videos|e] w']; cbn in IH; subst w'; reflexivity.
Qed.

Lemma is_video_in_old_cache_reads (clk : Clock) (video_id : string)
    (store : Database.t) :
  snd (Database.is_video_in_old_cache clk video_id store) = store.
Proof.
  unfold Database.is_video_in_old_cache. rewrite select_returns by reflexivity.
  reflexivity.
Qed.

Lemma get_channel_recent_videos_prefilter_keeps (config : Config) (clk : Clock)
    (item_ : YouTubeAPI.PlaylistItem) (w : State) :
  snd (YouTubeAPI.get_channel_recent_videos_prefilter config clk item_ w) = w.
Proof.
  unfold YouTubeAPI.get_channel_recent_videos_prefilter. cbv zeta.
  unfold bind at 1. unfold has_db at 1. unfold bind at 1.
  pose proof (on_db_keeps
                (Database.is_video_in_old_cache clk (YouTubeAPI.pi_video_id item_)) w
                (is_video_in_old_cache_reads clk (YouTubeAPI.pi_video_id item_)))
    as Hcached.
  destruct (bool_decide (is_Some (db w))).
  - destruct (on_db _ w) as [[cached|e] w']; cbn in Hcached; subst w'; [|reflexivity].
    destruct cached; [reflexivity|].
    destruct (_ && _); [apply skipped_item_keeps|reflexivity].
  - unfold ret at 1.
    destruct (_ && _); [apply skipped_item_keeps|reflexivity].
Qed.

(** C3.  Nothing is ever written to the negative cache, so that no live and
    no upcoming item is.  [add_video_to_old_cache] returns at once, with the
    store as it is, for an item flagged as a livestream, and it leaves the
    store as it is for every other item as well.  Each of the two loops of
    [get_channel_recent_videos] leaves the process, and its cache with it,
    as it is, whatever the item is and whether the call returns or raises.
    An upcoming item whose scheduled start is in the past is never made a
    candidate. *)
Theorem old_cache_never_written (config : Config) (clk : Clock) :
  (forall video_id channel_id days_ store,
      Database.add_video_to_old_cache clk video_id channel_id true days_ store
      = (Ok tt, store))
  /\ (forall video_id channel_id is_livestream days_ store,
         snd (Database.add_video_to_old_cache clk video_id channel_id is_livestream
                days_ store) = store)
  /\ (forall item_ w,
         snd (YouTubeAPI.get_channel_recent_videos_prefilter config clk item_ w) = w)
  /\ (forall video_info w,
         snd (YouTubeAPI.get_channel_recent_videos_item config clk video_info w) = w)
  /\ (forall items w,
         snd (YouTubeAPI.get_channel_recent_videos_loop config clk items w) = w)
  /\ (forall video_info live_details scheduled w video,
         YouTubeAPI.liveStreamingDetails video_info = Some live_details ->
         YouTubeAPI.scheduledStartTime live_details = Some scheduled ->
         scheduled < now clk ->
         fst (YouTubeAPI.get_channel_recent_videos_item config clk video_info w)
         <> Ok (Some video)).
Proof.
  split; [intros; reflexivity|].
  split; [intros; apply add_video_to_old_cache_writes_nothing|].
  split; [intros; apply get_channel_recent_videos_prefilter_keeps|].
  split; [intros; apply get_channel_recent_videos_item_keeps|].
  split; [intros; apply get_channel_recent_videos_loop_keeps|].
  intros video_info live_details scheduled w video Hlive Hscheduled Hpast.
  unfold YouTubeAPI.get_channel_recent_videos_item.
  assert (Hstate : exists is_livestream actual_start_time,
             YouTubeAPI.live_state video_info
             = (true, Some scheduled, is_livestream, actual_start_time)).
  { unfold YouTubeAPI.live_state. rewrite Hlive, Hscheduled.
    destruct (YouTubeAPI.actualStartTime live_details); eauto. }
  destruct Hstate as (is_livestream & actual_start_time & ->).
  assert (Hbefore : YouTubeAPI.before (Some scheduled) (now clk) = true).
  { unfold YouTubeAPI.before. destruct (Z.ltb_spec scheduled (now clk)); [reflexivity|lia]. }
  rewrite Hbefore, andb_false_r. cbn [andb].
  apply skipped_item_keeps.
Qed.

(** A live broadcast and an overdue one, each with a store that holds a
    cache entry and without a store: the process is as before, and the item
    is no candidate. *)
Lemma old_cache_never_written_witness :
  snd (YouTubeAPI.get_channel_recent_videos_item sample_config (at_hour 100) live_item
         (with_store cached_store)) = with_store cached_store
  /\ snd (YouTubeAPI.get_channel_recent_videos_item sample_config (at_hour 100)
            overdue_item without_store) = without_store
  /\ fst (YouTubeAPI.get_channel_recent_videos_item sample_config (at_hour 100)
            overdue_item (with_store cached_store)) <> Ok (Some live_broadcast)
  /\ fst (YouTubeAPI.get_channel_recent_videos_item sample_config (at_hour 100)
            overdue_item without_store) <> Ok (Some live_broadcast).
Proof.
  destruct (old_cache_never_written sample_config (at_hour 100))
    as (_ & _ & _ & Hitem & _ & Hskipped).
  split; [apply Hitem|]. split; [apply Hitem|]. split.
  - apply (Hskipped overdue_item
             {| YouTubeAPI.scheduledStartTime := Some (hours 99);
                YouTubeAPI.actualStartTime := None;
                YouTubeAPI.actualEndTime := None |} (hours 99));
      reflexivity.
  - apply (Hskipped overdue_item
             {| YouTubeAPI.scheduledStartTime := Some (hours 99);
                YouTubeAPI.actualStartTime := None;
                YouTubeAPI.actualEndTime := None |} (hours 99));
      reflexivity.
Defined.

(** ** Publishing *)

Lemma same_records_refl (w : State) : same_records w w.
Proof. unfold same_records. destruct (db w); reflexivity. Qed.

Lemma same_records_trans (w1 w2 w3 : State) :
  same_records w1 w2 -> same_records w2 w3 -> same_records w1 w3.
Proof.
  unfold same_records.
  destruct (db w1), (db w2), (db w3); try tauto. intros H1 H2. congruence.
Qed.

Lemma same_records_published (w w' : State) :
  same_records w w' -> published_records w' = published_records w.
Proof.
  unfold same_records, published_records.
  destruct (db w), (db w'); tauto.
Qed.

Lemma same_records_count (w w' : State) (clk : Clock) (hours_ : Z) :
  same_records w w' ->
  fst (on_db (Database.get_recent_posts_count clk hours_) w')
  = fst (on_db (Database.get_recent_posts_count clk hours_) w).
Proof.
  unfold same_records. intros H.
  destruct (db w) as [store|] eqn:Hw, (db w') as [store'|] eqn:Hw'; try tauto.
  - rewrite (on_db_present _ _ _ Hw), (on_db_present _ _ _ Hw').
    rewrite !get_recent_posts_count_returns. unfold recent_posts. cbn [fst].
    rewrite H. reflexivity.
  - unfold on_db. rewrite Hw, Hw'. reflexivity.
Qed.

(** A method that returns and keeps the published records, called when
    there is a store. *)
Lemma if_db_quiet (method : M Database.t unit) (w : State) :
  (forall store, exists store',
      method store = (Ok tt, store')
      /\ Database.posted_videos store' = Database.posted_videos store) ->
  exists w', if_db method w = (Ok tt, w') /\ same_records w w'.
Proof.
  intros Hmethod. unfold if_db, bind.
  destruct (db w) as [store|] eqn:Hdb.
  - rewrite (has_db_present _ _ Hdb), (on_db_present _ _ _ Hdb).
    destruct (Hmethod store) as (store' & -> & Hsame). eexists. split; [reflexivity|].
    unfold same_records. rewrite Hdb. exact Hsame.
  - rewrite (has_db_absent _ Hdb). eexists. split; [reflexivity|].
    apply same_records_refl.
Qed.

Lemma log_error_quiet (clk : Clock) (error_type error_message module function : string)
    (store : Database.t) :
  exists store',
    Database.log_error clk error_type error_message module function store
    = (Ok tt, store')
    /\ Database.posted_videos store' = Database.posted_videos store.
Proof.
  unfold Database.log_error, Database.execute_and_commit.
  rewrite execute_runs by reflexivity. eexists. split; reflexivity.
Qed.

Lemma record_lemmy_post_quiet (clk : Clock) (post_id : Z) (url title : string)
    (store : Database.t) :
  exists store',
    Database.record_lemmy_post clk post_id url title store = (Ok tt, store')
    /\ Database.posted_videos store' = Database.posted_videos store.
Proof.
  unfold Database.record_lemmy_post, Database.execute_and_commit.
  rewrite execute_runs by reflexivity. unfold bind, read.
  destruct (existsb _ _); eexists; split; reflexivity.
Qed.

(** [record_posted_video] adds the record, or raises and leaves the store as
    it was. *)
Lemma if_db_record_posted_video (clk : Clock) (video_data : Video) (post_id : Z)
    (w : State) :
  (exists w', if_db (Database.record_posted_video clk video_data post_id) w = (Ok tt, w'))
  \/ (exists e, if_db (Database.record_posted_video clk video_data post_id) w
                = (Raise e, w)).
Proof.
  unfold if_db, bind.
  destruct (db w) as [store|] eqn:Hdb.
  - rewrite (has_db_present _ _ Hdb), (on_db_present _ _ _ Hdb).
    unfold Database.record_posted_video, Database.execute_and_commit.
    rewrite execute_runs by reflexivity. unfold bind, read.
    destruct (existsb _ _).
    + right. eexists. cbn [raise fst snd]. destruct w; cbn in *. rewrite Hdb. reflexivity.
    + left. eexists. reflexivity.
  - rewrite (has_db_absent _ Hdb). left. eexists. reflexivity.
Qed.

Section Publishing.

Variable html_unescape : string -> string.
Variable config : Config.

(** [create_lemmy_post] returns, and when it returns [None] the published
    records are those from before. *)
Lemma create_lemmy_post_returns (env : BlueFlagBot.Environment) (video_data : Video)
    (w : State) :
  exists post_id w',
    BlueFlagBot.create_lemmy_post html_unescape config env video_data w
    = (Ok post_id, w')
    /\ (post_id = None -> same_records w w').
Proof.
  assert (Hhandler : forall e w1, same_records w w1 ->
    exists w2,
      (do _ <- if_db (Database.log_error (BlueFlagBot.clock env) "post_creation"
                        (str e) "bot.py" "create_lemmy_post");
       ret None) w1 = (Ok (@None Z), w2)
      /\ same_records w w2).
  { intros e w1 Hsame.
    destruct (if_db_quiet (Database.log_error (BlueFlagBot.clock env) "post_creation"
                             (str e) "bot.py" "create_lemmy_post") w1)
      as (w2 & Hlog & Hsame2); [intros; apply log_error_quiet|].
    exists w2. unfold bind. rewrite Hlog. split; [reflexivity|].
    eapply same_records_trans; eassumption. }
  unfold BlueFlagBot.create_lemmy_post. cbv zeta. unfold try_except.
  destruct (BlueFlagBot.truthy (BlueFlagBot.community_id env)); cbn [negb].
  2:{ exists None, w. split; [reflexivity|]. intros _. apply same_records_refl. }
  unfold bind at 1.
  destruct (series_tag video_data) as [tag|]; cbn [item].
  2:{ unfold raise at 1.
      destruct (Hhandler (KeyError "series_tag") w (same_records_refl w))
        as (w2 & -> & Hsame). eauto. }
  unfold ret at 1. unfold bind at 1.
  destruct (quality_score video_data) as [score|]; cbn [item].
  2:{ unfold raise at 1.
      destruct (Hhandler (KeyError "quality_score") w (same_records_refl w))
        as (w2 & -> & Hsame). eauto. }
  unfold ret at 1.
  destruct (get (test_mode config) false).
  - unfold bind at 1.
    destruct (if_db_record_posted_video (BlueFlagBot.clock env) video_data
                (Text.int16 (MD5.hexdigest (video_id video_data)) mod 10000000) w)
      as [(w1 & ->)|(e & ->)].
    + eexists _, _. split; [reflexivity|]. discriminate.
    + destruct (Hhandler e w (same_records_refl w)) as (w2 & -> & Hsame). eauto.
  - unfold bind at 1. unfold LemmyAPI.create_post.
    destruct (BlueFlagBot.response env) as [post_id| |e].
    + destruct (if_db_quiet (Database.record_lemmy_post (BlueFlagBot.clock env) post_id
                               (url video_data)
                               (String.append "["
                                  (String.append tag
                                     (String.append "] "
                                        (html_unescape (title video_data)))))) w)
        as (w1 & Hpost & Hsame1); [intros; apply record_lemmy_post_quiet|].
      unfold bind at 1. rewrite Hpost. unfold ret at 1. unfold bind at 1.
      destruct (if_db_record_posted_video (BlueFlagBot.clock env) video_data post_id w1)
        as [(w2 & ->)|(e & ->)].
      * eexists _, _. split; [reflexivity|]. discriminate.
      * destruct (Hhandler e w1 Hsame1) as (w2 & -> & Hsame). eauto.
    + exists None, w. split; [reflexivity|]. intros _. apply same_records_refl.
    + unfold raise at 1.
      destruct (Hhandler e w (same_records_refl w)) as (w2 & -> & Hsame). eauto.
Qed.

(** C9.  When [create_lemmy_post] fails for a candidate, that is when it
    returns [None], no published record has been added, so that the counts
    of published records of any window, those of the last 24 hours and of
    the last hour among them, are what they were; the loop of [run_once]
    counts one more error and goes on with the candidates that remain. *)
Theorem failed_publish_consumes_nothing (env : nat -> BlueFlagBot.Environment)
    (k : nat) (video : Video) (rest : list Video) (posts_made errors : Z)
    (w w' : State) :
  BlueFlagBot.create_lemmy_post html_unescape config (env k) video w = (Ok None, w') ->
  published_records w' = published_records w
  /\ (forall clk hours_,
        fst (on_db (Database.get_recent_posts_count clk hours_) w')
        = fst (on_db (Database.get_recent_posts_count clk hours_) w))
  /\ (posts_made < get (max_posts_per_run config) 5 ->
      BlueFlagBot.should_post_video config (BlueFlagBot.clock (env k)) video w
      = (Ok true, w) ->
      BlueFlagBot.run_once_loop html_unescape config env k (video :: rest)
        posts_made errors w
      = BlueFlagBot.run_once_loop html_unescape config env (S k) rest
          posts_made (errors + 1) w').
Proof.
  intros Hfailed.
  destruct (create_lemmy_post_returns (env k) video w) as (post_id & w1 & Heq & Hsame).
  rewrite Hfailed in Heq. injection Heq as <- <-.
  specialize (Hsame eq_refl).
  split; [apply same_records_published; exact Hsame|].
  split; [intros clk hours_; apply same_records_count; exact Hsame|].
  intros Hroom Hwanted. cbn [BlueFlagBot.run_once_loop].
  destruct (Z.geb_spec posts_made (get (max_posts_per_run config) 5)); [lia|].
  unfold bind at 1. rewrite Hwanted. cbn [negb].
  unfold bind at 1. unfold try_except. unfold bind at 1. rewrite Hfailed.
  reflexivity.
Qed.

End Publishing.

Lemma failed_publish_consumes_nothing_witness :
  published_records quiet_state = [posted "9bZkp7q19f0" (hours 90)]
  /\ BlueFlagBot.run_once_loop (fun s => s) sample_config refusing 0 [accepted_candidate] 0 0
       quiet_state
     = (Ok (0, 1), quiet_state).
Proof.
  split; [reflexivity|].
  rewrite (proj2 (proj2 (failed_publish_consumes_nothing (fun s => s) sample_config
                           refusing 0%nat accepted_candidate [] 0 0
                           quiet_state quiet_state eq_refl))).
  - reflexivity.
  - vm_compute. reflexivity.
  - vm_compute. reflexivity.
Defined.
